(** * sql-migrate-js: the migration resolver and execution engine

    A shallow embedding of [migrate.up.js], [migrate.down.js],
    [migrate.setup.js], [migrate.utils.js], [migrate.js] and of
    [composePredicates] (functional.js), with the properties of the
    specification stated over it.

    Strings are Rocq strings: a character stands for one UTF-16 code unit
    below 256, so that the built-in comparison of JavaScript strings is the
    lexicographic comparison of [String.compare]. *)

From Stdlib Require Import ZArith Ascii String List Bool Lia.
From Stdlib Require Import Sorting.Sorted Sorting.Permutation.
From Stdlib Require Import Floats.SpecFloat.
From Stdlib Require DecimalString.
From stdpp Require Import gmap strings.

Import ListNotations.
Local Open Scope string_scope.
Local Open Scope list_scope.

(** ** JavaScript built-ins on strings *)

Module Js.

(** [s.endsWith(suffix)]: some tail of [s] is [suffix]. *)
Fixpoint endsWith (s suffix : string) : bool :=
  String.eqb s suffix ||
  match s with
  | EmptyString => false
  | String _ s' => endsWith s' suffix
  end.

(** [s.split(sep)[0]] for a separator of one character: the characters
    before the first separator, the whole string when there is none. *)
Fixpoint splitHead (sep : ascii) (s : string) : string :=
  match s with
  | EmptyString => EmptyString
  | String c s' => if Ascii.eqb c sep then EmptyString else String c (splitHead sep s')
  end.

Fixpoint drop (n : nat) (s : string) : string :=
  match n, s with
  | S n', String _ s' => drop n' s'
  | _, _ => s
  end.

(** [s.replace(pattern, replacement)] with a string pattern: only the first
    occurrence is replaced.  The replacements used by the program contain
    no dollar sign, so they are inserted literally. *)
Fixpoint replace (pattern replacement s : string) : string :=
  if String.prefix pattern s then replacement +:+ drop (String.length pattern) s
  else match s with
       | EmptyString => EmptyString
       | String c s' => String c (replace pattern replacement s')
       end.

(** [s.includes(pattern)]. *)
Fixpoint includes (pattern s : string) : bool :=
  String.prefix pattern s ||
  match s with
  | EmptyString => false
  | String _ s' => includes pattern s'
  end.

(** Number of (possibly overlapping) occurrences of [pattern] in [s]. *)
Fixpoint occurrences (pattern s : string) : nat :=
  (if String.prefix pattern s then 1 else 0) +
  match s with
  | EmptyString => 0
  | String _ s' => occurrences pattern s'
  end.

(** [a <= b] on two strings: code units compared lexicographically. *)
Definition le (a b : string) : bool := String.leb a b.

(** [a >= b] on two strings. *)
Definition ge (a b : string) : bool := String.leb b a.

(** A value that is a string or [undefined]; [truthy] is the test an [if]
    performs on it: [undefined] and the empty string are falsy. *)
Definition truthy (v : option string) : bool :=
  match v with
  | Some (String _ _) => true
  | _ => false
  end.

(** A string without the character [sep]. *)
Fixpoint sepFree (sep : ascii) (u : string) : bool :=
  match u with
  | EmptyString => true
  | String a u' => negb (Ascii.eqb a sep) && sepFree sep u'
  end.

End Js.

(** ** Number(string): the StringToNumber conversion to binary64 *)

Module JsNumber.

Local Open Scope Z_scope.

Definition number := spec_float.

Definition prec : Z := 53.
Definition emax : Z := 1024.

Definition NaN : number := S754_nan.

Definition isStrWhiteSpaceChar (c : ascii) : bool :=
  let n := Z.of_nat (nat_of_ascii c) in
  (9 <=? n) && (n <=? 13) || (n =? 32) || (n =? 160).

Fixpoint trimStart (s : string) : string :=
  match s with
  | EmptyString => EmptyString
  | String c s' => if isStrWhiteSpaceChar c then trimStart s' else s
  end.

Fixpoint trimEnd (s : string) : string :=
  match s with
  | EmptyString => EmptyString
  | String c s' =>
      match trimEnd s' with
      | EmptyString => if isStrWhiteSpaceChar c then EmptyString else String c EmptyString
      | t => String c t
      end
  end.

(** Value of a digit in the given radix (2, 8, 10 or 16). *)
Definition digitValue (radix : Z) (c : ascii) : option Z :=
  let n := Z.of_nat (nat_of_ascii c) in
  let v :=
    if (48 <=? n) && (n <=? 57) then Some (n - 48)
    else if (97 <=? n) && (n <=? 102) then Some (n - 87)
    else if (65 <=? n) && (n <=? 70) then Some (n - 55)
    else None in
  match v with
  | Some d => if d <? radix then Some d else None
  | None => None
  end.

(** Reads the longest run of digits at the head of [s]: the value read
    (continuing [acc]), how many digits there were, and what follows. *)
Fixpoint readDigits (radix : Z) (s : string) (acc : Z) (count : nat)
  : Z * nat * string :=
  match s with
  | EmptyString => (acc, count, s)
  | String c s' =>
      match digitValue radix c with
      | Some d => readDigits radix s' (radix * acc + d) (S count)
      | None => (acc, count, s)
      end
  end.

(** The Number value for the mathematical value [m * 10^e], [m >= 0],
    rounded to nearest, ties to even. *)
Definition roundDecimal (negative : bool) (m e : Z) : number :=
  match m with
  | Z0 => S754_zero negative
  | Zpos p =>
      if 0 <=? e then binary_round prec emax negative (p * Z.to_pos (10 ^ e)) 0
      else
        let '(q, e', l) := SFdiv_core_binary prec emax m 0 (10 ^ (- e)) 0 in
        binary_round_aux prec emax negative q e' l
  | Zneg _ => NaN
  end.

(** ExponentPart (optional): [e] or [E], an optional sign, digits. *)
Definition readExponent (s : string) : option (Z * string) :=
  match s with
  | String c s' =>
      if Ascii.eqb c "e" || Ascii.eqb c "E" then
        let '(neg, s'') :=
          match s' with
          | String "+" t => (false, t)
          | String "-" t => (true, t)
          | _ => (false, s')
          end in
        match readDigits 10 s'' 0 0 with
        | (_, O, _) => None
        | (v, _, rest) => Some (if neg then - v else v, rest)
        end
      else Some (0, s)
  | EmptyString => Some (0, s)
  end.

(** StrUnsignedDecimalLiteral. *)
Definition unsignedDecimal (negative : bool) (s : string) : number :=
  if String.eqb s "Infinity" then S754_infinity negative
  else
    let '(ip, n1, afterInt) := readDigits 10 s 0 0 in
    let '(m, n2, afterFrac, wellFormed) :=
      match afterInt with
      | String "." t =>
          let '(m', n2', rest) := readDigits 10 t ip 0 in
          (m', n2', rest, negb ((n1 =? 0)%nat && (n2' =? 0)%nat))
      | _ => (ip, O, afterInt, negb (n1 =? 0)%nat)
      end in
    if wellFormed then
      match readExponent afterFrac with
      | Some (e, EmptyString) => roundDecimal negative m (e - Z.of_nat n2)
      | _ => NaN
      end
    else NaN.

(** NonDecimalIntegerLiteral: [0x], [0o] or [0b] and digits, no sign. *)
Definition nonDecimal (s : string) : option number :=
  match s with
  | String "0" (String c t) =>
      let radix :=
        if Ascii.eqb c "x" || Ascii.eqb c "X" then Some 16%Z
        else if Ascii.eqb c "o" || Ascii.eqb c "O" then Some 8%Z
        else if Ascii.eqb c "b" || Ascii.eqb c "B" then Some 2%Z
        else None in
      match radix with
      | Some r =>
          match readDigits r t 0 0 with
          | (_, O, _) => Some NaN
          | (v, _, EmptyString) => Some (binary_normalize prec emax v 0 false)
          | _ => Some NaN
          end
      | None => None
      end
  | _ => None
  end.

(** [Number(s)].  White space around the literal is dropped; the empty
    literal is [+0]; what is not a numeric literal is [NaN]. *)
Definition Number (s : string) : number :=
  match trimEnd (trimStart s) with
  | EmptyString => S754_zero false
  | String "+" t => unsignedDecimal false t
  | String "-" t => unsignedDecimal true t
  | t =>
      match nonDecimal t with
      | Some v => v
      | None => unsignedDecimal false t
      end
  end.

(** [a >= b] on two numbers: false as soon as one of them is [NaN]. *)
Definition ge (a b : number) : bool := SFleb b a.

(** Strings of decimal digits and the integers they denote, to speak of
    the keys that [Number] converts exactly. *)
Definition isDecimalDigit (c : ascii) : bool :=
  let n := Z.of_nat (nat_of_ascii c) in (48 <=? n) && (n <=? 57).

Fixpoint isDecimalDigits (s : string) : bool :=
  match s with
  | EmptyString => true
  | String c s' => isDecimalDigit c && isDecimalDigits s'
  end.

Fixpoint decimalValueFrom (acc : Z) (s : string) : Z :=
  match s with
  | EmptyString => acc
  | String c s' => decimalValueFrom (10 * acc + (Z.of_nat (nat_of_ascii c) - 48)) s'
  end.

Definition decimalValue (s : string) : Z := decimalValueFrom 0 s.

(** A key of one to fifteen decimal digits: its value is below 2^53. *)
Definition isDecimalKey (s : string) : bool :=
  isDecimalDigits s && (1 <=? String.length s)%nat && (String.length s <=? 15)%nat.

End JsNumber.

(** ** Errors and results *)

(** What a JavaScript [throw] carries: an [Error] with its message, a
    database error of the pg client, or a file-system error. *)
Inductive error : Type :=
  | JsError (message : string)
  | DatabaseError (message : string)
  | FsError (code : string).

Inductive result (A : Type) : Type :=
  | Ok (a : A)
  | Throw (e : error).

Arguments Ok {A} a.
Arguments Throw {A} e.

(** ** functional.js *)

(** [composePredicates(...predicates)]: [predicates.every(pred => pred(input))]. *)
Definition composePredicates {A : Type} (predicates : list (A -> bool)) : A -> bool :=
  fun input => forallb (fun pred => pred input) predicates.

(** ** Array.prototype.sort *)

Section Sort.

Context {A : Type}.

(** The comparator: [Lt] for a negative number, [Eq] for zero, [Gt] for
    a positive one. *)
Variable comparefn : A -> A -> comparison.

Fixpoint sortInsert (x : A) (l : list A) : list A :=
  match l with
  | [] => [x]
  | y :: l' =>
      match comparefn x y with
      | Gt => y :: sortInsert x l'
      | _ => x :: l
      end
  end.

(** [array.sort(comparefn)].  The sort is stable; with a consistent
    comparator its result is the one list that is sorted and keeps equal
    elements in their order, which insertion from the right computes. *)
Definition sortWith (l : list A) : list A := fold_right sortInsert [] l.

(** [a] does not come after [b]. *)
Definition notAfter (a b : A) : Prop := comparefn a b <> Gt.

(** What ECMAScript asks of a consistent comparator, as far as sorting
    needs it. *)
Record consistent : Prop := {
  consistent_total : forall a b, comparefn a b = Gt -> comparefn b a <> Gt;
  consistent_trans : forall a b c, notAfter a b -> notAfter b c -> notAfter a c
}.

End Sort.

(** ** migrate.up.js and migrate.down.js: the plan resolver *)

Definition APPLY_MIGRATION_FILE_SUFFIX : string := ".apply.sql".
Definition REVERT_MIGRATION_FILE_SUFFIX : string := ".revert.sql".

Definition invalidMigrationFile : error :=
  JsError "Invalid migration file. The filename must end with '.revert.sql'.".

(** [migration.split("_")[0] <= migrationTimestamp] *)
Definition filterBeforeOrAtTimestamp (migration migrationTimestamp : string) : bool :=
  Js.le (Js.splitHead "_" migration) migrationTimestamp.

Definition determineMigrationsToApply
    (allMigrations appliedMigrations : list string)
    (migrationTimestamp : option string) : list string :=
  let appliedMigrationsSet : gset string := list_to_set appliedMigrations in
  let predicates : list (string -> bool) :=
    [ (fun migration => Js.endsWith migration APPLY_MIGRATION_FILE_SUFFIX);
      (fun migration => negb (bool_decide (migration ∈ appliedMigrationsSet))) ] in
  let predicates :=
    match migrationTimestamp with
    | Some (String _ _ as timestamp) =>
        predicates ++ [fun migration => filterBeforeOrAtTimestamp migration timestamp]
    | _ => predicates
    end in
  List.filter (composePredicates predicates) allMigrations.

(** [Number(migration.split("_")[0]) >= Number(migrationTimestamp)] *)
Definition filterAfterOrAtTimestamp (migration migrationTimestamp : string) : bool :=
  let migrationTime := Js.splitHead "_" migration in
  JsNumber.ge (JsNumber.Number migrationTime) (JsNumber.Number migrationTimestamp).

Definition appliedToRevertMigration (filename : string) : string :=
  Js.replace ".apply." ".revert." filename.

(** The apply-filename that [revertMigration] derives from the name of the
    revert file, for the row to delete. *)
Definition applyFilenameOf (filename : string) : string :=
  Js.replace REVERT_MIGRATION_FILE_SUFFIX APPLY_MIGRATION_FILE_SUFFIX filename.

(** The substitution the other way round, by which the specification maps
    a plan back to applied filenames. *)
Definition revertToApplied (filename : string) : string :=
  Js.replace ".revert." ".apply." filename.

(** The [forEach] throws at the first filename that does not end with the
    suffix, with the same error whichever it is: the check is [forallb]. *)
Definition determineMigrationsToRevert
    (revertMigrations : list string) (migrationTimestamp : option string)
    : result (list string) :=
  if forallb (fun filename => Js.endsWith filename ".revert.sql") revertMigrations then
    match migrationTimestamp with
    | Some (String _ _ as timestamp) =>
        Ok (List.filter
              (fun migration => filterAfterOrAtTimestamp migration timestamp)
              revertMigrations)
    | _ => Ok revertMigrations
    end
  else Throw invalidMigrationFile.

Section Locale.

(** [a.localeCompare(b)]: the collation of the host's locale. *)
Variable localeCompare : string -> string -> comparison.

(** The order in which [applyMigrations] walks the plan:
    [migrationsToApply.sort((a, b) => a.localeCompare(b))]. *)
Definition applyOrder (migrationsToApply : list string) : list string :=
  sortWith (fun a b => localeCompare a b) migrationsToApply.

Definition sortMigrationsInDescendingOrder (migrations : list string) : list string :=
  sortWith (fun a b =>
          let timestampA := Js.splitHead "_" a in
          let timestampB := Js.splitHead "_" b in
          localeCompare timestampB timestampA)
       migrations.

(** The plan of [handleDown], from the applied filenames it has read. *)
Definition downPlan (appliedMigrations : list string)
    (migrationTimestamp : option string) : result (list string) :=
  let sortedAppliedMigrations := sortMigrationsInDescendingOrder appliedMigrations in
  let allRevertMigrations := map appliedToRevertMigration sortedAppliedMigrations in
  determineMigrationsToRevert allRevertMigrations migrationTimestamp.

End Locale.

(** ** The database behind the pg client *)

Record column : Type := Column { column_name : string; column_definition : string }.

(** The tables of schema public with their columns, and the rows of table
    migrations, oldest first.  Of a row only the filename is kept: the
    program reads and writes no other column. *)
Record database : Type := Database {
  tables : gmap string (list column);
  filenames : list string
}.

(** The statements the program sends, and the content of a migration file,
    which is sent as it is. *)
Inductive statement : Type :=
  | SelectMigrationsTableExists
      (* SELECT EXISTS (SELECT FROM information_schema.tables WHERE
         table_schema = 'public' AND table_name = 'migrations') *)
  | CreateMigrationsTable
      (* CREATE TABLE migrations (id SERIAL PRIMARY KEY, filename
         VARCHAR(255) NOT NULL, applied_at TIMESTAMP NOT NULL DEFAULT NOW()) *)
  | SelectAppliedFilenames
      (* SELECT filename FROM migrations ORDER BY filename *)
  | InsertMigration (filename : string)
      (* INSERT INTO migrations (filename) VALUES ($1) *)
  | DeleteMigration (filename : string)
      (* DELETE FROM migrations WHERE filename = $1 *)
  | Script (sql : string).

Inductive command : Type :=
  | BEGIN
  | COMMIT
  | ROLLBACK
  | Sql (st : statement).

Inductive row : Type :=
  | RowExists (exists_ : bool)
  | RowFilename (filename : string).

Definition migrationsColumns : list column :=
  [ Column "id" "SERIAL PRIMARY KEY";
    Column "filename" "VARCHAR(255) NOT NULL";
    Column "applied_at" "TIMESTAMP NOT NULL DEFAULT NOW()" ].

(** SQLSTATE codes of the errors the statements can raise. *)
Definition undefined_table : error := DatabaseError "42P01".
Definition duplicate_table : error := DatabaseError "42P07".
Definition string_data_right_truncation : error := DatabaseError "22001".
Definition in_failed_sql_transaction : error := DatabaseError "25P02".

Definition hasMigrationsTable (d : database) : bool :=
  bool_decide (is_Some (tables d !! "migrations")).

(** The transaction block of the session: none, open with its working
    state, or failed (every statement is refused until the block ends). *)
Inductive transaction : Type :=
  | NoTransaction
  | InTransaction (working : database)
  | FailedTransaction.

(** A connected pg client: the committed state of the database, the
    transaction block of the session, and the commands sent so far. *)
Record client : Type := Client {
  committed : database;
  txn : transaction;
  sent : list command
}.

(** The state that the statements of the session read and write. *)
Definition visible (c : client) : database :=
  match txn c with
  | InTransaction working => working
  | _ => committed c
  end.

(** A promise-returning function that works on the client. *)
Definition async (A : Type) : Type := client -> result A * client.

Definition ret {A} (a : A) : async A := fun c => (Ok a, c).
Definition throw {A} (e : error) : async A := fun c => (Throw e, c).

Definition bind {A B} (m : async A) (k : A -> async B) : async B :=
  fun c =>
    match m c with
    | (Ok a, c') => k a c'
    | (Throw e, c') => (Throw e, c')
    end.

Definition tryCatch {A} (body : async A) (handler : error -> async A) : async A :=
  fun c =>
    match body c with
    | (Ok a, c') => (Ok a, c')
    | (Throw e, c') => handler e c'
    end.

(** [try { body } finally { cleanup }] *)
Definition tryFinally {A} (body : async A) (cleanup : async unit) : async A :=
  fun c =>
    let '(r, c') := body c in
    match cleanup c' with
    | (Ok _, c'') => (r, c'')
    | (Throw e, c'') => (Throw e, c'')
    end.

Definition lift {A} (r : result A) : async A := fun c => (r, c).

Declare Scope async_scope.
Delimit Scope async_scope with async.
Notation "x <- m ;; k" := (bind m (fun x => k))
  (at level 100, m at next level, right associativity) : async_scope.
Notation "m ;; k" := (bind m (fun _ => k))
  (at level 100, right associativity) : async_scope.
Local Open Scope async_scope.

(** [for (const x of l) await f(x)]: stops at the first throw. *)
Fixpoint forOf {A} (l : list A) (f : A -> async unit) : async unit :=
  match l with
  | [] => ret tt
  | x :: l' => f x ;; forOf l' f
  end.

Section Engine.

(** The host: what a migration script does to the database (or the error
    it raises), the migrations directory, and the two collations.  The
    functions of the program that take the client are [async] functions;
    their guard against a missing client has no counterpart, the client
    is always there. *)
Variable runScript : string -> database -> result database.
Variable readFile : string -> option string.
Variable readdir : result (list string).
Variable collate : string -> string -> comparison.
Variable localeCompare : string -> string -> comparison.

(** One statement on a database state: the new state and the rows. *)
Definition execute (st : statement) (d : database) : result (database * list row) :=
  match st with
  | SelectMigrationsTableExists => Ok (d, [RowExists (hasMigrationsTable d)])
  | CreateMigrationsTable =>
      if hasMigrationsTable d then Throw duplicate_table
      else Ok (Database (<["migrations" := migrationsColumns]> (tables d)) [], [])
  | SelectAppliedFilenames =>
      if hasMigrationsTable d
      then Ok (d, map RowFilename (sortWith collate (filenames d)))
      else Throw undefined_table
  | InsertMigration filename =>
      if hasMigrationsTable d then
        if (String.length filename <=? 255)%nat
        then Ok (Database (tables d) (filenames d ++ [filename]), [])
        else Throw string_data_right_truncation
      else Throw undefined_table
  | DeleteMigration filename =>
      if hasMigrationsTable d
      then Ok (Database (tables d)
                 (List.filter (fun f => negb (String.eqb f filename)) (filenames d)), [])
      else Throw undefined_table
  | Script sql =>
      match runScript sql d with
      | Ok d' => Ok (d', [])
      | Throw e => Throw e
      end
  end.

(** [client.query]: PostgreSQL's handling of one command.  [BEGIN] in an
    open block and [COMMIT] or [ROLLBACK] outside one only emit a warning;
    [COMMIT] of a failed block rolls back; outside a block a statement
    commits by itself. *)
Definition query (cmd : command) : async (list row) :=
  fun c =>
    let log := sent c ++ [cmd] in
    match cmd, txn c with
    | BEGIN, NoTransaction =>
        (Ok [], Client (committed c) (InTransaction (committed c)) log)
    | BEGIN, InTransaction w => (Ok [], Client (committed c) (InTransaction w) log)
    | BEGIN, FailedTransaction =>
        (Throw in_failed_sql_transaction, Client (committed c) FailedTransaction log)
    | COMMIT, InTransaction w => (Ok [], Client w NoTransaction log)
    | COMMIT, _ => (Ok [], Client (committed c) NoTransaction log)
    | ROLLBACK, _ => (Ok [], Client (committed c) NoTransaction log)
    | Sql st, NoTransaction =>
        match execute st (committed c) with
        | Ok (d, rows) => (Ok rows, Client d NoTransaction log)
        | Throw e => (Throw e, Client (committed c) NoTransaction log)
        end
    | Sql st, InTransaction w =>
        match execute st w with
        | Ok (d, rows) => (Ok rows, Client (committed c) (InTransaction d) log)
        | Throw e => (Throw e, Client (committed c) FailedTransaction log)
        end
    | Sql st, FailedTransaction =>
        (Throw in_failed_sql_transaction, Client (committed c) FailedTransaction log)
    end.

(** *** migrate.utils.js *)

Definition getAllMigrations : async (list string) := lift readdir.

Definition readMigrationContent (filename : string) : async string :=
  match readFile filename with
  | Some content => ret content
  | None => throw (FsError "ENOENT")
  end.

Definition executeInTransaction {A} (action : async A) : async unit :=
  tryCatch
    (query BEGIN ;; action ;; query COMMIT ;; ret tt)
    (fun error => query ROLLBACK ;; throw error).

Definition executeSQL (sql : statement) : async (list row) :=
  tryCatch
    (query BEGIN ;;
     result <- query (Sql sql) ;;
     query COMMIT ;;
     ret result)
    (fun error => query ROLLBACK ;; throw error).

(** *** migrate.setup.js *)

(** [result.rows[0].exists]: a missing property is [undefined], which
    [handleSetup] takes for false; a missing row is a [TypeError]. *)
Definition doesMigrationsTableExist : async bool :=
  result <- query (Sql SelectMigrationsTableExists) ;;
  match result with
  | RowExists b :: _ => ret b
  | RowFilename _ :: _ => ret false
  | [] => throw (JsError "TypeError")
  end.

Definition createMigrationsTable : async (list row) :=
  executeSQL CreateMigrationsTable.

Definition handleSetup : async unit :=
  exists_ <- doesMigrationsTableExist ;;
  if (exists_ : bool) then ret tt
  else createMigrationsTable ;; ret tt.

(** *** migrate.up.js *)

Definition rowFilename (r : row) : option string :=
  match r with
  | RowFilename filename => Some filename
  | RowExists _ => None
  end.

(** [rows.map((row) => row.filename)] on the rows of the query, which
    all have a filename. *)
Definition getAppliedMigrations : async (list string) :=
  tryCatch
    (rows <- query (Sql SelectAppliedFilenames) ;;
     ret (omap rowFilename rows))
    (fun error => throw error).

Definition applyMigration (filename : string) : async unit :=
  if negb (Js.truthy (Some filename))
  then throw (JsError "Client or filename is not provided.")
  else
    executeInTransaction
      (migrationContent <- readMigrationContent filename ;;
       executeSQL (Script migrationContent) ;;
       executeSQL (InsertMigration filename)).

Definition applyMigrations (migrationsToApply : list string) : async unit :=
  forOf (applyOrder localeCompare migrationsToApply) applyMigration.

Definition handleUp (migrationTimestamp : option string) : async unit :=
  tryCatch
    (allMigrations <- getAllMigrations ;;
     appliedMigrations <- getAppliedMigrations ;;
     let migrationsToApply :=
       determineMigrationsToApply allMigrations appliedMigrations migrationTimestamp in
     match migrationsToApply with
     | [] => ret tt
     | _ => applyMigrations migrationsToApply
     end)
    (fun error => throw error).

(** *** migrate.down.js *)

Definition revertMigration (filename : string) : async unit :=
  if negb (Js.endsWith filename REVERT_MIGRATION_FILE_SUFFIX)
  then throw invalidMigrationFile
  else
    migrationContent <- readMigrationContent filename ;;
    executeSQL (Script migrationContent) ;;
    let applyFilename := applyFilenameOf filename in
    executeSQL (DeleteMigration applyFilename) ;;
    ret tt.

Definition handleDown (migrationTimestamp : option string) : async unit :=
  tryCatch
    (appliedMigrations <- getAppliedMigrations ;;
     migrationsToRevert <- lift (downPlan localeCompare appliedMigrations migrationTimestamp) ;;
     match migrationsToRevert with
     | [] => ret tt
     | _ => forOf migrationsToRevert revertMigration
     end)
    (fun error => throw error).

(** *** migrate.js *)

Definition getClient (d : database) : client := Client d NoTransaction [].

(** [client.end()]: the server drops what an open block has not committed. *)
Definition closeClient : async unit :=
  fun c => (Ok tt, Client (committed c) NoTransaction (sent c)).

(** [main], on the arguments after the script name and a database: the
    client as it is when the connection has been closed.  [generate]
    writes two files and sends nothing to the database. *)
Definition main (argv : list string) (d : database) : client :=
  let command := argv !! 0%nat in
  let option := argv !! 1%nat in
  let run : async unit :=
    tryFinally
      (tryCatch
         (match command with
          | Some "setup" => handleSetup
          | Some "generate" => ret tt
          | Some "up" => handleUp option
          | Some "down" => handleDown None
          | _ => ret tt
          end)
         (fun error => ret tt))
      closeClient in
  snd (run (getClient d)).

End Engine.

(** ** A small host, for the concrete runs *)

Module Demo.

(** Scripts of one statement: CREATE TABLE t, DROP TABLE t. *)
Definition runScript (sql : string) (d : database) : result database :=
  if String.prefix "CREATE TABLE " sql then
    let name := Js.drop 13 sql in
    match tables d !! name with
    | Some _ => Throw duplicate_table
    | None => Ok (Database (<[name := []]> (tables d)) (filenames d))
    end
  else if String.prefix "DROP TABLE " sql then
    let name := Js.drop 11 sql in
    match tables d !! name with
    | Some _ =>
        Ok (Database (delete name (tables d))
              (if String.eqb name "migrations" then [] else filenames d))
    | None => Throw undefined_table
    end
  else Throw (DatabaseError "42601").

Definition readFile (filename : string) : option string :=
  if String.eqb filename "1_users.apply.sql" then Some "CREATE TABLE users"
  else if String.eqb filename "1_users.revert.sql" then Some "DROP TABLE users"
  else if String.eqb filename "2_posts.apply.sql" then Some "CREATE TABLE posts"
  else if String.eqb filename "2_posts.revert.sql" then Some "DROP TABLE posts"
  else None.

Definition readdir : result (list string) :=
  Ok ["1_users.apply.sql"; "1_users.revert.sql";
      "2_posts.apply.sql"; "2_posts.revert.sql"].

(** Both collations compare code units. *)
Definition compare : string -> string -> comparison := String.compare.

Definition emptyDatabase : database := Database ∅ [].

(** After [setup] and [up]: both units applied. *)
Definition migratedDatabase : database :=
  Database (<["posts" := []]> (<["users" := []]> {["migrations" := migrationsColumns]}))
    ["1_users.apply.sql"; "2_posts.apply.sql"].

End Demo.

(** ** More of the program: the older filters of migrate.utils.js *)

(** [array.includes(x)] on an array of strings. *)
Definition arrayIncludes (array : list string) (x : string) : bool :=
  existsb (String.eqb x) array.

Definition filterMigrations
    (allMigrations appliedMigrations : list string) (filterFn : string -> bool)
    : list string :=
  List.filter
    (fun migration => negb (arrayIncludes appliedMigrations migration) && filterFn migration)
    allMigrations.

(** [migrationTime <= migrationTimestamp] is false when the timestamp is
    [undefined]; the empty string is a string like any other here. *)
Definition filterMigrationsToTimestamp
    (allMigrations appliedMigrations : list string)
    (migrationTimestamp : option string) : list string :=
  filterMigrations allMigrations appliedMigrations
    (fun migration =>
       let migrationTime := Js.splitHead "_" migration in
       match migrationTimestamp with
       | Some timestamp => Js.le migrationTime timestamp
       | None => false
       end && Js.endsWith migration ".apply.sql").

(** ** More of functional.js *)

(** [fns.reduceRight((val, fn) => fn(val), initialVal)] *)
Definition compose {A : Type} (fns : list (A -> A)) : A -> A :=
  fun initialVal => fold_right (fun fn val => fn val) initialVal fns.

Definition identity {A : Type} (x : A) : A := x.

(** What [threadFirst] is given after the initial value: a function, an
    array that starts with a function and goes on with further arguments,
    an array that does not start with a function (the empty one too), or
    something that is neither a function nor an array. *)
Inductive threaded (A : Type) : Type :=
  | Function (fn : A -> A)
  | ArrayOf (func : A -> list A -> A) (args : list A)
  | ArrayWithoutFunction
  | NeitherFunctionNorArray.

Arguments Function {A} fn.
Arguments ArrayOf {A} func args.
Arguments ArrayWithoutFunction {A}.
Arguments NeitherFunctionNorArray {A}.

(** [fns.reduce(..., x)]; the first throw ends the reduction.  Calling
    what is not a function is a [TypeError]. *)
Definition threadFirst {A : Type} (x : A) (fns : list (threaded A)) : result A :=
  fold_left
    (fun acc fn =>
       match acc with
       | Ok value =>
           match fn with
           | Function f => Ok (f value)
           | ArrayOf func args => Ok (func value args)
           | ArrayWithoutFunction => Throw (JsError "TypeError")
           | NeitherFunctionNorArray => Throw (JsError "Invalid function format")
           end
       | Throw e => Throw e
       end)
    fns (Ok x).

(** The things that [threadFirst] can apply. *)
Definition applicable {A : Type} (fn : threaded A) : bool :=
  match fn with
  | Function _ | ArrayOf _ _ => true
  | ArrayWithoutFunction | NeitherFunctionNorArray => false
  end.

(** ** migrate.generate.js: the names of the generated files *)

Module Generate.

Local Open Scope Z_scope.

(** [String(n)] for an integer. *)
Definition numberToString (n : Z) : string :=
  DecimalString.NilZero.string_of_int (Z.to_int n).

Fixpoint repeatChar (c : ascii) (n : nat) : string :=
  match n with
  | O => EmptyString
  | S n' => String c (repeatChar c n')
  end.

(** [s.padStart(targetLength, c)] for a pad string of one character. *)
Definition padStart (targetLength : nat) (c : ascii) (s : string) : string :=
  repeatChar c (targetLength - String.length s) +:+ s.

(** The fields that [generateTimestamp] reads from [new Date()], as the
    UTC getters return them (the month counts from 0). *)
Record utcDate : Type := UtcDate {
  getUTCFullYear : Z;
  getUTCMonth : Z;
  getUTCDate : Z;
  getUTCHours : Z;
  getUTCMinutes : Z;
  getUTCSeconds : Z
}.

Definition generateTimestamp (date : utcDate) : string :=
  let YYYY := getUTCFullYear date in
  let MM := padStart 2 "0" (numberToString (getUTCMonth date + 1)) in
  let DD := padStart 2 "0" (numberToString (getUTCDate date)) in
  let HH := padStart 2 "0" (numberToString (getUTCHours date)) in
  let mm := padStart 2 "0" (numberToString (getUTCMinutes date)) in
  let ss := padStart 2 "0" (numberToString (getUTCSeconds date)) in
  numberToString YYYY +:+ MM +:+ DD +:+ HH +:+ mm +:+ ss.

(** The fields of a date whose year has four digits. *)
Definition fourDigitYear (date : utcDate) : Prop :=
  1000 <= getUTCFullYear date <= 9999 /\
  0 <= getUTCMonth date <= 11 /\
  1 <= getUTCDate date <= 31 /\
  0 <= getUTCHours date <= 23 /\
  0 <= getUTCMinutes date <= 59 /\
  0 <= getUTCSeconds date <= 59.

(** The order of two dates, field by field: the order in time. *)
Definition compareDates (a b : utcDate) : comparison :=
  match getUTCFullYear a ?= getUTCFullYear b with
  | Eq =>
      match getUTCMonth a ?= getUTCMonth b with
      | Eq =>
          match getUTCDate a ?= getUTCDate b with
          | Eq =>
              match getUTCHours a ?= getUTCHours b with
              | Eq =>
                  match getUTCMinutes a ?= getUTCMinutes b with
                  | Eq => getUTCSeconds a ?= getUTCSeconds b
                  | ne => ne
                  end
              | ne => ne
              end
          | ne => ne
          end
      | ne => ne
      end
  | ne => ne
  end.

(** The integer that the digits of the timestamp of a date denote. *)
Definition timestampValue (date : utcDate) : Z :=
  ((((getUTCFullYear date * 100 + (getUTCMonth date + 1)) * 100 + getUTCDate date) * 100
    + getUTCHours date) * 100 + getUTCMinutes date) * 100 + getUTCSeconds date.

Definition isAsciiLower (c : ascii) : bool :=
  let n := Z.of_nat (nat_of_ascii c) in (97 <=? n) && (n <=? 122).

Definition isAsciiUpper (c : ascii) : bool :=
  let n := Z.of_nat (nat_of_ascii c) in (65 <=? n) && (n <=? 90).

(** [s.replace(/c/g, r)] for a pattern of one character. *)
Fixpoint replaceAllChar (c r : ascii) (s : string) : string :=
  match s with
  | EmptyString => EmptyString
  | String a s' => String (if Ascii.eqb a c then r else a) (replaceAllChar c r s')
  end.

(** [s.replace(/([a-z])([A-Z])/g, "$1-$2")]: the matches are taken from
    left to right, and the search goes on after the two characters of a
    match. *)
Fixpoint hyphenateCamelCase (s : string) : string :=
  match s with
  | String a (String b t as rest) =>
      if isAsciiLower a && isAsciiUpper b
      then String a (String "-" (String b (hyphenateCamelCase t)))
      else String a (hyphenateCamelCase rest)
  | _ => s
  end.

(** [c.toLowerCase()] on a code unit below 256: the letters A to Z and the
    capital letters of Latin-1 move by 32. *)
Definition toLowerChar (c : ascii) : ascii :=
  let n := Z.of_nat (nat_of_ascii c) in
  if (65 <=? n) && (n <=? 90)
     || (192 <=? n) && (n <=? 214)
     || (216 <=? n) && (n <=? 222)
  then ascii_of_nat (nat_of_ascii c + 32)
  else c.

Fixpoint toLowerCase (s : string) : string :=
  match s with
  | EmptyString => EmptyString
  | String a s' => String (toLowerChar a) (toLowerCase s')
  end.

Definition formatMigrationName (migrationName : string) : string :=
  toLowerCase
    (hyphenateCamelCase
       (replaceAllChar "_" "-" (replaceAllChar " " "-" migrationName))).



End Generate.

(** ** Hosts and actions, to state what the engine does *)

(** Statements one after the other, on one state of the database. *)
Fixpoint executeAll (runScript : string -> database -> result database)
    (collate : string -> string -> comparison)
    (statements : list statement) (d : database) : result database :=
  match statements with
  | [] => Ok d
  | st :: rest =>
      match execute runScript collate st d with
      | Ok (d', _) => executeAll runScript collate rest d'
      | Throw e => Throw e
      end
  end.

(** An action that sends statements with [client.query], one after the
    other, as a caller of [executeInTransaction] does. *)
Definition queryAll (runScript : string -> database -> result database)
    (collate : string -> string -> comparison)
    (statements : list statement) : async unit :=
  forOf statements (fun st => bind (query runScript collate (Sql st)) (fun _ => ret tt)).



(** The boundary test of [determineMigrationsToApply]: no test when the
    timestamp is [undefined] or empty. *)
Definition withinBoundary (migrationTimestamp : option string) (migration : string) : bool :=
  match migrationTimestamp with
  | Some (String _ _ as timestamp) => filterBeforeOrAtTimestamp migration timestamp
  | _ => true
  end.


(** A host whose scripts can be run again: CREATE TABLE IF NOT EXISTS t,
    DROP TABLE IF EXISTS t; anything else is a syntax error. *)
Module Rerunnable.

Definition runScript (sql : string) (d : database) : result database :=
  if String.prefix "CREATE TABLE IF NOT EXISTS " sql then
    let name := Js.drop 27 sql in
    match tables d !! name with
    | Some _ => Ok d
    | None => Ok (Database (<[name := []]> (tables d)) (filenames d))
    end
  else if String.prefix "DROP TABLE IF EXISTS " sql then
    let name := Js.drop 21 sql in
    Ok (Database (delete name (tables d))
          (if String.eqb name "migrations" then [] else filenames d))
  else Throw (DatabaseError "42601").

Definition readFile (filename : string) : option string :=
  if String.eqb filename "1_users.apply.sql" then Some "CREATE TABLE IF NOT EXISTS users"
  else if String.eqb filename "1_users.revert.sql" then Some "DROP TABLE IF EXISTS users"
  else if String.eqb filename "2_posts.apply.sql" then Some "CREATE TABLE IF NOT EXISTS posts"
  else if String.eqb filename "2_posts.revert.sql" then Some "DROP TABLE IF EXISTS posts"
  else if String.eqb filename "3_likes.apply.sql" then Some "CREATE TABEL likes"
  else None.


(** After [up] on the first two units. *)
Definition migratedDatabase : database :=
  Database (<["posts" := []]> (<["users" := []]> {["migrations" := migrationsColumns]}))
    ["1_users.apply.sql"; "2_posts.apply.sql"].

End Rerunnable.



(** ** Facts on the string built-ins *)

Module JsFacts.

Import Js.

Lemma replace_eq pattern replacement s :
  replace pattern replacement s =
  if String.prefix pattern s then replacement +:+ drop (String.length pattern) s
  else match s with
       | EmptyString => EmptyString
       | String c s' => String c (replace pattern replacement s')
       end.
Proof. destruct s; reflexivity. Qed.

Lemma prefix_cons a u b s :
  String.prefix (String a u) (String b s) = Ascii.eqb a b && String.prefix u s.
Proof.
  simpl. destruct (ascii_dec a b) as [->|Hne].
  - now rewrite Ascii.eqb_refl.
  - apply Ascii.eqb_neq in Hne. now rewrite Hne.
Qed.

Lemma prefix_nil_r a u : String.prefix (String a u) EmptyString = false.
Proof. reflexivity. Qed.

Lemma prefix_nil_l s : String.prefix EmptyString s = true.
Proof. destruct s; reflexivity. Qed.

Lemma app_cons a u q : String a u +:+ q = String a (u +:+ q).
Proof. reflexivity. Qed.

Lemma prefix_drop u : forall s,
  String.prefix u s = true -> s = u +:+ drop (String.length u) s.
Proof.
  induction u as [|a u IH]; intros [|b s] H; try reflexivity; try discriminate.
  rewrite prefix_cons in H. apply andb_true_iff in H as [Hab Hus].
  apply Ascii.eqb_eq in Hab. subst b. rewrite app_cons. simpl drop. f_equal. now apply IH.
Qed.

Lemma prefix_append u q : String.prefix u (u +:+ q) = true.
Proof.
  induction u as [|a u IH]; [apply prefix_nil_l|].
  rewrite app_cons, prefix_cons, Ascii.eqb_refl. exact IH.
Qed.

Lemma drop_append u q : drop (String.length u) (u +:+ q) = q.
Proof. induction u as [|a u IH]; [now destruct q|]. rewrite app_cons. exact IH. Qed.

Lemma prefix_trans u v : forall s,
  String.prefix u v = true -> String.prefix v s = true -> String.prefix u s = true.
Proof.
  revert v. induction u as [|a u IH]; intros v s Huv Hvs; [apply prefix_nil_l|].
  destruct v as [|b v]; [discriminate|]. destruct s as [|c s]; [discriminate|].
  rewrite prefix_cons in *.
  apply andb_true_iff in Huv as [Hab Huv]. apply andb_true_iff in Hvs as [Hbc Hvs].
  apply Ascii.eqb_eq in Hab, Hbc. subst. rewrite Ascii.eqb_refl. simpl. eauto.
Qed.

(** Replacing the first [.apply.] by [.revert.] creates no occurrence of a
    dot-free word followed by a dot at the head of the string. *)
Lemma prefix_replace_apply u : sepFree "." u = true -> forall s,
  String.prefix (u +:+ ".") s = false ->
  String.prefix (u +:+ ".") (replace ".apply." ".revert." s) = false.
Proof.
  induction u as [|a u IH]; intros Hu s H.
  - destruct s as [|c s]; [reflexivity|].
    rewrite replace_eq. destruct (String.prefix ".apply." (String c s)) eqn:Hp.
    + apply prefix_trans with (u := ".") in Hp; [|reflexivity].
      change ("" +:+ ".") with "." in H. congruence.
    + change ("" +:+ ".") with "." in *. rewrite prefix_cons in *.
      now rewrite prefix_nil_l in *.
  - simpl in Hu. apply andb_true_iff in Hu as [Ha Hu].
    destruct s as [|c s]; [reflexivity|].
    rewrite replace_eq. destruct (String.prefix ".apply." (String c s)) eqn:Hp.
    + rewrite (app_cons a), (app_cons "." "revert."), prefix_cons.
    apply negb_true_iff in Ha. now rewrite Ha.
    + rewrite (app_cons a) in *. rewrite prefix_cons in *. destruct (Ascii.eqb a c); [|reflexivity].
      simpl in *. now apply IH.
Qed.

Lemma includes_cons pattern c s :
  includes pattern (String c s) = String.prefix pattern (String c s) || includes pattern s.
Proof. reflexivity. Qed.

(** Without [.revert.] in the name, [.revert.] back to [.apply.] undoes
    [.apply.] to [.revert.]. *)
Lemma replace_revert_apply : forall s,
  includes ".revert." s = false ->
  replace ".revert." ".apply." (replace ".apply." ".revert." s) = s.
Proof.
  induction s as [|c s IH]; intros H; [reflexivity|].
  rewrite includes_cons in H. apply orb_false_iff in H as [Hp Hi].
  rewrite (replace_eq ".apply.").
  destruct (String.prefix ".apply." (String c s)) eqn:Ha.
  - rewrite replace_eq, prefix_append, drop_append.
    symmetry. now apply prefix_drop in Ha.
  - rewrite replace_eq.
    assert (Hr : String.prefix ".revert." (String c (replace ".apply." ".revert." s)) = false).
    { change ".revert." with (String "." ("revert" +:+ ".")) in *.
      rewrite prefix_cons in *. destruct (Ascii.eqb "." c); [|reflexivity].
      simpl andb in *. now apply prefix_replace_apply. }
    rewrite Hr. f_equal. now apply IH.
Qed.

Lemma endsWith_cons c s suffix :
  endsWith (String c s) suffix = String.eqb (String c s) suffix || endsWith s suffix.
Proof. reflexivity. Qed.

Lemma occurrences_cons pattern c s :
  occurrences pattern (String c s) =
  ((if String.prefix pattern (String c s) then 1 else 0) + occurrences pattern s)%nat.
Proof. reflexivity. Qed.

Lemma prefix_refl s : String.prefix s s = true.
Proof. induction s as [|a s IH]; [reflexivity|]. now rewrite prefix_cons, Ascii.eqb_refl. Qed.

(** A string that ends with [suffix] contains every prefix of [suffix]. *)
Lemma endsWith_includes pattern suffix : String.prefix pattern suffix = true ->
  forall s, endsWith s suffix = true -> includes pattern s = true.
Proof.
  intros Hp. induction s as [|c s IH]; intros H.
  - cbn [endsWith] in H. rewrite orb_false_r in H. apply String.eqb_eq in H. subst suffix.
    cbn [includes]. now rewrite Hp.
  - rewrite endsWith_cons in H. rewrite includes_cons.
    apply orb_true_iff in H as [H|H].
    + apply String.eqb_eq in H. rewrite H, Hp. reflexivity.
    + rewrite (IH H). apply orb_true_r.
Qed.

Lemma includes_occurrences pattern : forall s,
  includes pattern s = true -> (1 <= occurrences pattern s)%nat.
Proof.
  induction s as [|c s IH]; intros H.
  - cbn [includes occurrences] in *. rewrite orb_false_r in H. rewrite H. lia.
  - rewrite includes_cons in H. rewrite occurrences_cons.
    destruct (String.prefix pattern (String c s)); [lia|]. apply IH in H. lia.
Qed.

Lemma includes_false_replace pattern replacement : forall s,
  includes pattern s = false -> replace pattern replacement s = s.
Proof.
  induction s as [|c s IH]; intros H.
  - rewrite replace_eq. cbn [includes] in H. rewrite orb_false_r in H. now rewrite H.
  - rewrite includes_cons in H. apply orb_false_iff in H as [Hp Hi].
    rewrite replace_eq, Hp. f_equal. now apply IH.
Qed.

(** The round trip of [revertMigration] on a well-formed apply-filename. *)
Lemma applyFilenameOf_appliedToRevertMigration : forall filename,
  occurrences ".apply." filename = 1%nat ->
  includes ".revert." filename = false ->
  endsWith filename ".apply.sql" = true ->
  applyFilenameOf (appliedToRevertMigration filename) = filename.
Proof.
  unfold applyFilenameOf, appliedToRevertMigration,
    REVERT_MIGRATION_FILE_SUFFIX, APPLY_MIGRATION_FILE_SUFFIX.
  induction filename as [|c s IH]; intros Hocc Hrev Hend; [discriminate|].
  rewrite occurrences_cons in Hocc. rewrite includes_cons in Hrev.
  apply orb_false_iff in Hrev as [Hp Hi].
  rewrite endsWith_cons in Hend.
  rewrite (replace_eq ".apply.").
  destruct (String.prefix ".apply." (String c s)) eqn:Ha.
  - destruct (String.eqb_spec (String c s) ".apply.sql") as [->|Hne]; [reflexivity|].
    simpl in Hend.
    apply (endsWith_includes ".apply." ".apply.sql" eq_refl) in Hend.
    apply includes_occurrences in Hend. lia.
  - destruct (String.eqb_spec (String c s) ".apply.sql") as [Heq|Hne].
    { rewrite Heq in Ha. discriminate. }
    simpl in Hend. rewrite replace_eq.
    assert (Hr : String.prefix ".revert.sql" (String c (replace ".apply." ".revert." s)) = false).
    { destruct (String.prefix ".revert.sql" _) eqn:E; [|reflexivity].
      apply (prefix_trans ".revert." ".revert.sql" _ eq_refl) in E.
      change ".revert." with (String "." ("revert" +:+ ".")) in *.
      rewrite prefix_cons in *. destruct (Ascii.eqb "." c); [|discriminate].
      simpl andb in *. rewrite prefix_replace_apply in E; [discriminate|reflexivity|exact Hp]. }
    rewrite Hr. f_equal. apply IH; [simpl in Hocc; lia|exact Hi|exact Hend].
Qed.

(** A pattern without separator that starts the name starts its key too. *)
Lemma prefix_splitHead sep u : sepFree sep u = true -> forall s,
  String.prefix u s = true -> String.prefix u (splitHead sep s) = true.
Proof.
  induction u as [|a u IH]; intros Hu s H; [apply prefix_nil_l|].
  destruct s as [|c s]; [discriminate|].
  simpl in Hu. apply andb_true_iff in Hu as [Ha Hu].
  rewrite prefix_cons in H. apply andb_true_iff in H as [Hac H].
  apply Ascii.eqb_eq in Hac. subst c. simpl splitHead.
  apply negb_true_iff in Ha. rewrite Ha, prefix_cons, Ascii.eqb_refl. simpl. now apply IH.
Qed.

Lemma includes_prefix pattern s : String.prefix pattern s = true -> includes pattern s = true.
Proof. intros H. destruct s; cbn [includes]; now rewrite H. Qed.

(** The substitution leaves the timestamp key alone when the key does not
    contain [.apply.]. *)
Lemma splitHead_appliedToRevertMigration : forall filename,
  includes ".apply." (splitHead "_" filename) = false ->
  splitHead "_" (appliedToRevertMigration filename) = splitHead "_" filename.
Proof.
  unfold appliedToRevertMigration.
  induction filename as [|c s IH]; intros H; [reflexivity|].
  rewrite replace_eq.
  destruct (String.prefix ".apply." (String c s)) eqn:Ha.
  - apply (prefix_splitHead "_" ".apply." eq_refl) in Ha.
    apply includes_prefix in Ha. congruence.
  - simpl splitHead in *. destruct (Ascii.eqb c "_"); [reflexivity|].
    rewrite includes_cons in H. apply orb_false_iff in H as [_ H].
    f_equal. now apply IH.
Qed.

End JsFacts.

(** ** Facts on [Number] *)

Module NumberFacts.

Import JsNumber.
Local Open Scope Z_scope.

Lemma digits2_pos_size p : digits2_pos p = Pos.size p.
Proof. induction p; simpl; congruence. Qed.

Lemma iter_xO_Z p k : Zpos (Pos.iter xO p k) = Zpos p * 2 ^ Zpos k.
Proof.
  induction k as [|k IH] using Pos.peano_ind.
  - simpl. lia.
  - rewrite Pos.iter_succ, Pos2Z.inj_succ, Z.pow_succ_r by lia.
    rewrite Pos2Z.inj_xO, IH. lia.
Qed.

Lemma digits2_pos_iter_xO p k :
  digits2_pos (Pos.iter xO p k) = (digits2_pos p + k)%positive.
Proof.
  induction k as [|k IH] using Pos.peano_ind.
  - simpl. lia.
  - rewrite Pos.iter_succ. simpl. rewrite IH. lia.
Qed.

(** The bounds of the number of binary digits. *)
Lemma digits2_pos_bounds p :
  2 ^ (Zpos (digits2_pos p) - 1) <= Zpos p < 2 ^ Zpos (digits2_pos p).
Proof.
  rewrite digits2_pos_size.
  pose proof (Pos.size_gt p) as Hgt. pose proof (Pos.size_le p) as Hle.
  assert (H2 : Zpos (2 ^ Pos.size p) = 2 ^ Zpos (Pos.size p)) by apply Pos2Z.inj_pow.
  split.
  - assert (2 * 2 ^ (Zpos (Pos.size p) - 1) = 2 ^ Zpos (Pos.size p)).
    { rewrite <- Z.pow_succ_r by lia. f_equal. lia. }
    lia.
  - lia.
Qed.

Lemma binary_round_aux_exact m e :
  digits2_pos m = 53%positive -> -1074 <= e <= 971 ->
  binary_round_aux 53 1024 false (Zpos m) e loc_Exact = S754_finite false m e.
Proof.
  intros Hd He.
  unfold binary_round_aux, shr_fexp, fexp, emin, Zdigits2.
  rewrite Hd.
  replace (Z.max (53 + e - 53) (3 - 1024 - 53) - e) with 0 by lia.
  cbn [shr shr_record_of_loc loc_of_shr_record shr_m round_nearest_even].
  cbn [Zdigits2]. rewrite Hd.
  replace (Z.max (53 + e - 53) (3 - 1024 - 53) - e) with 0 by lia.
  cbn [shr shr_record_of_loc shr_m].
  destruct (Z.leb_spec e (1024 - 53)); [reflexivity|lia].
Qed.

(** A positive integer below 2^53 is a binary64 number: [m] scaled to 53
    bits, with the exponent that undoes the scaling. *)
Lemma binary_round_integer p :
  Zpos p < 2 ^ 53 ->
  exists m e,
    binary_round prec emax false p 0 = S754_finite false m e /\
    e = Zpos (digits2_pos p) - 53 /\
    Zpos m = Zpos p * 2 ^ (- e).
Proof.
  intros Hp.
  assert (Hd : Zpos (digits2_pos p) <= 53).
  { pose proof (digits2_pos_bounds p) as [Hlo _].
    destruct (Z.le_gt_cases (Zpos (digits2_pos p)) 53) as [|Hgt]; [assumption|].
    assert (2 ^ 53 <= 2 ^ (Zpos (digits2_pos p) - 1)) by (apply Z.pow_le_mono_r; lia).
    lia. }
  unfold binary_round, shl_align, fexp, emin, prec, emax.
  replace (Z.max (Zpos (digits2_pos p) + 0 - 53) (3 - 1024 - 53) - 0)
    with (Zpos (digits2_pos p) - 53) by lia.
  replace (Z.max (Zpos (digits2_pos p) + 0 - 53) (3 - 1024 - 53))
    with (Zpos (digits2_pos p) - 53) by lia.
  destruct (Zpos (digits2_pos p) - 53) as [|k|k] eqn:Hk; [|lia|].
  - exists p, 0. rewrite (binary_round_aux_exact p 0); [|lia|lia].
    repeat split; lia.
  - exists (Pos.iter xO p k), (Zneg k).
    rewrite binary_round_aux_exact.
    + repeat split. rewrite iter_xO_Z. reflexivity.
    + rewrite digits2_pos_iter_xO. lia.
    + lia.
Qed.

Lemma SFleb_integers m1 e1 m2 e2 p1 p2 :
  e1 = Zpos (digits2_pos p1) - 53 -> Zpos m1 = Zpos p1 * 2 ^ (- e1) ->
  e2 = Zpos (digits2_pos p2) - 53 -> Zpos m2 = Zpos p2 * 2 ^ (- e2) ->
  e1 <= 0 -> e2 <= 0 ->
  SFleb (S754_finite false m1 e1) (S754_finite false m2 e2) = (Zpos p1 <=? Zpos p2).
Proof.
  intros He1 Hm1 He2 Hm2 Hn1 Hn2.
  pose proof (digits2_pos_bounds p1) as [Hlo1 Hhi1].
  pose proof (digits2_pos_bounds p2) as [Hlo2 Hhi2].
  unfold SFleb, SFcompare. rewrite Pos.compare_cont_spec. cbn [Pos.switch_Eq].
  destruct (Z.compare_spec e1 e2) as [Heq|Hlt|Hgt].
  - assert (Hpow : 0 < 2 ^ (- e1)) by (apply Z.pow_pos_nonneg; lia).
    rewrite <- Heq in Hm2.
    change (Pos.compare m1 m2) with (Z.compare (Zpos m1) (Zpos m2)).
    destruct (Z.compare_spec (Zpos m1) (Zpos m2));
      destruct (Z.leb_spec (Zpos p1) (Zpos p2)); try reflexivity; nia.
  - assert (Hle : 2 ^ Zpos (digits2_pos p1) <= 2 ^ (Zpos (digits2_pos p2) - 1))
      by (apply Z.pow_le_mono_r; lia).
    symmetry. apply Z.leb_le. lia.
  - assert (Hle : 2 ^ Zpos (digits2_pos p2) <= 2 ^ (Zpos (digits2_pos p1) - 1))
      by (apply Z.pow_le_mono_r; lia).
    symmetry. apply Z.leb_gt. lia.
Qed.

(** On integers below 2^53 the comparison of the Number values is the
    comparison of the integers. *)
Lemma ge_integers a b :
  0 <= a < 2 ^ 53 -> 0 <= b < 2 ^ 53 ->
  ge (binary_normalize prec emax a 0 false) (binary_normalize prec emax b 0 false)
  = (b <=? a).
Proof.
  intros Ha Hb. unfold ge, binary_normalize.
  destruct a as [|p|p]; [| |lia]; destruct b as [|q|q]; try lia.
  - reflexivity.
  - destruct (binary_round_integer q) as (m & e & -> & _ & _); [lia|]. reflexivity.
  - destruct (binary_round_integer p) as (m & e & -> & _ & _); [lia|]. reflexivity.
  - destruct (binary_round_integer p) as (m1 & e1 & -> & He1 & Hm1); [lia|].
    destruct (binary_round_integer q) as (m2 & e2 & -> & He2 & Hm2); [lia|].
    assert (Hd : forall r, Zpos r < 2 ^ 53 -> Zpos (digits2_pos r) <= 53).
    { intros r Hr. pose proof (digits2_pos_bounds r) as [Hlo _].
      destruct (Z.le_gt_cases (Zpos (digits2_pos r)) 53) as [|Hgt]; [assumption|].
      assert (2 ^ 53 <= 2 ^ (Zpos (digits2_pos r) - 1)) by (apply Z.pow_le_mono_r; lia).
      lia. }
    apply SFleb_integers; try assumption.
    + pose proof (Hd q). lia.
    + pose proof (Hd p). lia.
Qed.

Lemma isDecimalDigit_bounds c :
  isDecimalDigit c = true -> 48 <= Z.of_nat (nat_of_ascii c) <= 57.
Proof. unfold isDecimalDigit. lia. Qed.

Lemma decimalValueFrom_bounds s : forall acc,
  isDecimalDigits s = true -> 0 <= acc ->
  0 <= decimalValueFrom acc s < (acc + 1) * 10 ^ Z.of_nat (String.length s).
Proof.
  induction s as [|c s IH]; intros acc Hs Hacc.
  - cbn. lia.
  - cbn [isDecimalDigits] in Hs. apply andb_true_iff in Hs as [Hc Hs].
    apply isDecimalDigit_bounds in Hc.
    cbn [decimalValueFrom String.length]. rewrite Nat2Z.inj_succ, Z.pow_succ_r by lia.
    specialize (IH (10 * acc + (Z.of_nat (nat_of_ascii c) - 48)) Hs ltac:(lia)).
    assert (0 < 10 ^ Z.of_nat (String.length s)) by (apply Z.pow_pos_nonneg; lia).
    nia.
Qed.

Lemma decimalValue_key s :
  isDecimalKey s = true -> 0 <= decimalValue s < 2 ^ 53.
Proof.
  unfold isDecimalKey. intros H.
  apply andb_true_iff in H as [H Hmax]. apply andb_true_iff in H as [Hd Hmin].
  apply Nat.leb_le in Hmax.
  pose proof (decimalValueFrom_bounds s 0 Hd ltac:(lia)) as [Hlo Hhi].
  unfold decimalValue. split; [exact Hlo|].
  assert (10 ^ Z.of_nat (String.length s) <= 10 ^ 15) by (apply Z.pow_le_mono_r; lia).
  assert (10 ^ 15 < 2 ^ 53) by reflexivity. lia.
Qed.

Lemma readDigits_decimalDigits s : forall acc count,
  isDecimalDigits s = true ->
  readDigits 10 s acc count = (decimalValueFrom acc s, (count + String.length s)%nat, "").
Proof.
  induction s as [|c s IH]; intros acc count Hs.
  - cbn. now rewrite Nat.add_0_r.
  - cbn [isDecimalDigits] in Hs. apply andb_true_iff in Hs as [Hc Hs].
    cbn [readDigits decimalValueFrom String.length].
    assert (Hd : digitValue 10 c = Some (Z.of_nat (nat_of_ascii c) - 48)).
    { unfold digitValue. unfold isDecimalDigit in Hc. rewrite Hc.
      apply isDecimalDigit_bounds in Hc.
      destruct (Z.ltb_spec (Z.of_nat (nat_of_ascii c) - 48) 10); [reflexivity|lia]. }
    rewrite Hd, IH by exact Hs. now rewrite Nat.add_succ_r.
Qed.

Lemma isDecimalDigit_not_space c :
  isDecimalDigit c = true -> isStrWhiteSpaceChar c = false.
Proof.
  intros H. apply isDecimalDigit_bounds in H. unfold isStrWhiteSpaceChar.
  repeat match goal with
         | |- context [Z.leb ?a ?b] => destruct (Z.leb_spec a b); try lia
         | |- context [Z.eqb ?a ?b] => destruct (Z.eqb_spec a b); try lia
         end; reflexivity.
Qed.

Lemma trimEnd_decimalDigits s : isDecimalDigits s = true -> trimEnd s = s.
Proof.
  induction s as [|c s IH]; intros Hs; [reflexivity|].
  cbn [isDecimalDigits] in Hs. apply andb_true_iff in Hs as [Hc Hs].
  cbn [trimEnd]. rewrite (IH Hs), (isDecimalDigit_not_space c Hc). now destruct s.
Qed.

Lemma roundDecimal_integer m :
  0 <= m -> roundDecimal false m 0 = binary_normalize prec emax m 0 false.
Proof.
  intros Hm. destruct m as [|p|p]; [reflexivity| |lia].
  cbn [roundDecimal binary_normalize]. cbn [Z.leb Z.compare Z.pow Z.to_pos].
  change (Z.to_pos (10 ^ 0)) with 1%positive.
  now rewrite Pos.mul_1_r.
Qed.

(** The ten decimal digits, one by one. *)
Lemma isDecimalDigit_cases c :
  isDecimalDigit c = true ->
  In c ["0"; "1"; "2"; "3"; "4"; "5"; "6"; "7"; "8"; "9"]%char.
Proof.
  destruct c as [[] [] [] [] [] [] [] []]; intros H; try discriminate H; cbn; auto 11.
Qed.

Lemma nonDecimal_decimalDigits s :
  isDecimalDigits s = true -> nonDecimal s = None.
Proof.
  destruct s as [|c [|c2 t]]; intros Hs; [reflexivity| |].
  - cbn [isDecimalDigits] in Hs. apply andb_true_iff in Hs as [Hc _].
    apply isDecimalDigit_cases in Hc. cbn in Hc.
    repeat (destruct Hc as [<-|Hc]; [reflexivity|]). destruct Hc.
  - cbn [isDecimalDigits] in Hs. apply andb_true_iff in Hs as [Hc Hs].
    apply andb_true_iff in Hs as [Hc2 _].
    apply isDecimalDigit_cases in Hc, Hc2. cbn in Hc, Hc2.
    repeat (destruct Hc as [<-|Hc];
            [repeat (destruct Hc2 as [<-|Hc2]; [reflexivity|]); destruct Hc2|]).
    destruct Hc.
Qed.

(** [Number] on a string of decimal digits: the integer, rounded. *)
Lemma Number_decimalDigits s :
  s <> "" -> isDecimalDigits s = true ->
  Number s = binary_normalize prec emax (decimalValue s) 0 false.
Proof.
  intros Hne Hs. destruct s as [|c s']; [congruence|].
  assert (Hc : isDecimalDigit c = true).
  { cbn [isDecimalDigits] in Hs. now apply andb_true_iff in Hs as [Hc _]. }
  assert (Htrim : trimEnd (trimStart (String c s')) = String c s').
  { cbn [trimStart]. rewrite (isDecimalDigit_not_space c Hc).
    now apply trimEnd_decimalDigits. }
  assert (Hnd := nonDecimal_decimalDigits _ Hs).
  assert (Hud : unsignedDecimal false (String c s') =
                binary_normalize prec emax (decimalValue (String c s')) 0 false).
  { unfold unsignedDecimal.
    assert (Hinf : String.eqb (String c s') "Infinity" = false).
    { apply String.eqb_neq. intros Heq. injection Heq as -> _. discriminate Hc. }
    rewrite Hinf, (readDigits_decimalDigits _ 0 0%nat Hs).
    cbn [String.length Nat.add Nat.eqb negb readExponent Nat2Z.inj].
    change (0 - Z.of_nat 0) with 0.
    apply roundDecimal_integer.
    now apply (decimalValueFrom_bounds _ 0 Hs). }
  unfold Number. rewrite Htrim.
  apply isDecimalDigit_cases in Hc. cbn in Hc.
  repeat (destruct Hc as [<-|Hc]; [now rewrite Hnd|]). destruct Hc.
Qed.

(** On keys of one to fifteen decimal digits [Number] loses nothing: the
    comparison of [filterAfterOrAtTimestamp] is that of the integers. *)
Lemma ge_Number_decimalKey key boundary :
  isDecimalKey key = true -> isDecimalKey boundary = true ->
  ge (Number key) (Number boundary) = (decimalValue boundary <=? decimalValue key).
Proof.
  intros Hk Hb.
  assert (Hparts : forall s, isDecimalKey s = true -> s <> "" /\ isDecimalDigits s = true).
  { intros s H. unfold isDecimalKey in H.
    apply andb_true_iff in H as [H _]. apply andb_true_iff in H as [Hd Hmin].
    split; [|exact Hd]. intros ->. discriminate Hmin. }
  destruct (Hparts _ Hk) as [Hk1 Hk2]. destruct (Hparts _ Hb) as [Hb1 Hb2].
  rewrite (Number_decimalDigits _ Hk1 Hk2), (Number_decimalDigits _ Hb1 Hb2).
  apply ge_integers; now apply decimalValue_key.
Qed.

Lemma decimalValueFrom_shift s : forall acc,
  decimalValueFrom acc s = acc * 10 ^ Z.of_nat (String.length s) + decimalValue s.
Proof.
  unfold decimalValue. induction s as [|c s IH]; intros acc.
  - cbn. lia.
  - cbn [decimalValueFrom String.length]. rewrite Nat2Z.inj_succ, Z.pow_succ_r by lia.
    rewrite (IH (10 * acc + _)), (IH (10 * 0 + _)). ring.
Qed.

(** Decimal keys of the same width compare as strings as they do as
    integers. *)
Lemma compare_decimalDigits a : forall b,
  isDecimalDigits a = true -> isDecimalDigits b = true ->
  String.length a = String.length b ->
  String.compare a b = Z.compare (decimalValue a) (decimalValue b).
Proof.
  induction a as [|x a IH]; intros [|y b] Ha Hb Hlen; try discriminate Hlen.
  - reflexivity.
  - cbn [isDecimalDigits] in Ha, Hb.
    apply andb_true_iff in Ha as [Hx Ha]. apply andb_true_iff in Hb as [Hy Hb].
    injection Hlen as Hlen.
    pose proof (decimalValueFrom_bounds a 0 Ha ltac:(lia)) as Hva.
    pose proof (decimalValueFrom_bounds b 0 Hb ltac:(lia)) as Hvb.
    fold (decimalValue a) in Hva. fold (decimalValue b) in Hvb.
    unfold decimalValue at 1 2. cbn [decimalValueFrom String.compare].
    rewrite !decimalValueFrom_shift, <- Hlen in *.
    set (w := 10 ^ Z.of_nat (String.length a)) in *.
    unfold Ascii.compare. unfold nat_of_ascii. rewrite !N_nat_Z.
    rewrite <- N2Z.inj_compare.
    destruct (Z.compare_spec (Z.of_N (N_of_ascii x)) (Z.of_N (N_of_ascii y)))
      as [Heq|Hlt|Hgt].
    + rewrite Heq, (IH b Ha Hb Hlen).
      destruct (Z.compare_spec (decimalValue a) (decimalValue b));
        symmetry; [apply Z.compare_eq_iff|apply Z.compare_lt_iff|apply Z.compare_gt_iff];
        lia.
    + symmetry. apply Z.compare_lt_iff. nia.
    + symmetry. apply Z.compare_gt_iff. nia.
Qed.

End NumberFacts.

(** ** Facts on [sortWith] *)

Section SortFacts.

Context {A : Type}.
Variable comparefn : A -> A -> comparison.

Lemma sortInsert_Permutation x l : Permutation (x :: l) (sortInsert comparefn x l).
Proof.
  induction l as [|y l IH]; simpl; [reflexivity|].
  destruct (comparefn x y); try reflexivity.
  rewrite perm_swap. now apply perm_skip.
Qed.

Lemma sort_Permutation l : Permutation l (sortWith comparefn l).
Proof.
  induction l as [|x l IH]; simpl; [reflexivity|].
  rewrite <- sortInsert_Permutation. now apply perm_skip.
Qed.

Hypothesis Hcmp : consistent comparefn.

Lemma sortInsert_StronglySorted x l :
  StronglySorted (notAfter comparefn) l ->
  StronglySorted (notAfter comparefn) (sortInsert comparefn x l).
Proof.
  induction 1 as [|y l Hl IH Hy]; simpl; [repeat constructor|].
  destruct (comparefn x y) eqn:E.
  - constructor; [now constructor|]. constructor; [unfold notAfter; congruence|].
    eapply List.Forall_impl; [|exact Hy]. intros z Hz.
    apply (consistent_trans comparefn Hcmp x y z); [unfold notAfter; congruence|exact Hz].
  - constructor; [now constructor|]. constructor; [unfold notAfter; congruence|].
    eapply List.Forall_impl; [|exact Hy]. intros z Hz.
    apply (consistent_trans comparefn Hcmp x y z); [unfold notAfter; congruence|exact Hz].
  - constructor; [exact IH|].
    eapply Permutation_Forall; [apply sortInsert_Permutation|].
    constructor; [now apply (consistent_total comparefn Hcmp)|exact Hy].
Qed.

Lemma sort_StronglySorted l : StronglySorted (notAfter comparefn) (sortWith comparefn l).
Proof.
  induction l as [|x l IH]; simpl; [constructor|now apply sortInsert_StronglySorted].
Qed.

End SortFacts.

Lemma StronglySorted_filter_bool {A} (R : A -> A -> Prop) (p : A -> bool) l :
  StronglySorted R l -> StronglySorted R (List.filter p l).
Proof.
  induction 1 as [|x l Hl IH Hx]; simpl; [constructor|].
  destruct (p x); [|exact IH]. constructor; [exact IH|].
  apply List.Forall_forall. intros y Hy. apply filter_In in Hy as [Hy _].
  revert y Hy. now apply List.Forall_forall.
Qed.

Lemma StronglySorted_map_in {A B} (R : A -> A -> Prop) (R' : B -> B -> Prop) (g : A -> B) l :
  (forall a b, In a l -> In b l -> R a b -> R' (g a) (g b)) ->
  StronglySorted R l -> StronglySorted R' (map g l).
Proof.
  intros Hg H. induction H as [|x l Hl IH Hx]; simpl; [constructor|].
  constructor.
  - apply IH. intros a b Ha Hb. apply Hg; now right.
  - apply List.Forall_forall. intros y Hy. apply in_map_iff in Hy as (z & <- & Hz).
    apply Hg; [now left|now right|]. revert z Hz. now apply List.Forall_forall.
Qed.

Lemma String_compare_consistent : consistent String.compare.
Proof.
  assert (Htr : forall a b c, String.compare a b <> Gt -> String.compare b c <> Gt ->
                              String.compare a c <> Gt).
  { induction a as [|x a IH]; intros [|y b] [|z c]; simpl; try congruence.
    unfold Ascii.compare.
    destruct (N.compare_spec (N_of_ascii x) (N_of_ascii y)) as [Hxy|Hxy|Hxy];
      destruct (N.compare_spec (N_of_ascii y) (N_of_ascii z)) as [Hyz|Hyz|Hyz];
      try congruence; intros H1 H2.
    - rewrite Hxy, Hyz, N.compare_refl. now apply (IH b c).
    - replace (N_of_ascii x ?= N_of_ascii z)%N with Lt; [congruence|].
      symmetry. apply N.compare_lt_iff. lia.
    - replace (N_of_ascii x ?= N_of_ascii z)%N with Lt; [congruence|].
      symmetry. apply N.compare_lt_iff. lia.
    - replace (N_of_ascii x ?= N_of_ascii z)%N with Lt; [congruence|].
      symmetry. apply N.compare_lt_iff. lia. }
  split; [|exact Htr].
  intros a b H. rewrite String.compare_antisym, H. discriminate.
Qed.

(** ** The cases of the test suite *)

Example test_filterBeforeOrAtTimestamp :
  filterBeforeOrAtTimestamp
    "20230922034400002_create_posts_table.apply.sql" "20230922034400003" = true /\
  filterBeforeOrAtTimestamp
    "20230922034400004_create_likes_table.apply.sql" "20230922034400003" = false.
Proof. split; reflexivity. Qed.

Example test_determineMigrationsToApply :
  determineMigrationsToApply
    ["20230922034400001_create_users_table.apply.sql";
     "20230922034400002_create_posts_table.apply.sql";
     "20230922034400003_create_comments_table.apply.sql";
     "20230922034400004_create_likes_table.apply.sql"]
    ["20230922034400001_create_users_table.apply.sql"]
    (Some "20230922034400003") =
  ["20230922034400002_create_posts_table.apply.sql";
   "20230922034400003_create_comments_table.apply.sql"].
Proof. vm_compute. reflexivity. Qed.

Example test_filterAfterOrAtTimestamp :
  filterAfterOrAtTimestamp
    "20230922034400004_create_likes_table.apply.sql" "20230922034400003" = true /\
  filterAfterOrAtTimestamp
    "20230922034400002_create_posts_table.apply.sql" "20230922034400003" = false.
Proof. split; vm_compute; reflexivity. Qed.

Example test_appliedToRevertMigration :
  appliedToRevertMigration "20230922034400002_create_posts_table.apply.sql" =
  "20230922034400002_create_posts_table.revert.sql".
Proof. reflexivity. Qed.

Example test_determineMigrationsToRevert :
  determineMigrationsToRevert
    ["20230922034400002_create_posts_table.revert.sql";
     "20230922034400003_create_comments_table.revert.sql"] None =
  Ok ["20230922034400002_create_posts_table.revert.sql";
      "20230922034400003_create_comments_table.revert.sql"] /\
  determineMigrationsToRevert
    ["20230922034400002_create_posts_table.revert.sql";
     "20230922034400003_create_comments_table.revert.sql"]
    (Some "20230922034400003") =
  Ok ["20230922034400003_create_comments_table.revert.sql"] /\
  determineMigrationsToRevert
    ["20230922034400002_create_posts_table.revert.sql"; "invalid_migration.sql"] None =
  Throw invalidMigrationFile.
Proof. repeat split; vm_compute; reflexivity. Qed.

(** [setup] then [up] on an empty database, then [down]. *)
Example test_setup_up_down :
  let run := main Demo.runScript Demo.readFile Demo.readdir Demo.compare Demo.compare in
  let afterSetup := committed (run ["setup"] Demo.emptyDatabase) in
  let afterUp := committed (run ["up"] afterSetup) in
  afterUp = Demo.migratedDatabase /\
  committed (run ["down"] afterUp) = afterSetup /\
  committed (run ["setup"] afterUp) = afterUp.
Proof. repeat split; vm_compute; reflexivity. Qed.

(** ** The plan resolver *)

Lemma composePredicates_true {A} (predicates : list (A -> bool)) input :
  composePredicates predicates input = true <->
  forall pred, In pred predicates -> pred input = true.
Proof. unfold composePredicates. rewrite forallb_forall. reflexivity. Qed.

Lemma filter_sublist {A} (p : A -> bool) l : sublist (List.filter p l) l.
Proof.
  induction l as [|x l IH]; simpl; [constructor|].
  destruct (p x); now constructor.
Qed.

(** C3. No filename returned by [determineMigrationsToApply] is in the
    applied list; every returned filename ends with [.apply.sql]; and when a
    boundary is given (a string that the test [if (migrationTimestamp)]
    accepts) the timestamp key of every returned filename is at most the
    boundary, as strings. *)
Theorem determineMigrationsToApply_selects
    allMigrations appliedMigrations migrationTimestamp migration :
  In migration
     (determineMigrationsToApply allMigrations appliedMigrations migrationTimestamp) ->
  ~ In migration appliedMigrations /\
  Js.endsWith migration ".apply.sql" = true /\
  (forall boundary, migrationTimestamp = Some boundary ->
     Js.truthy migrationTimestamp = true ->
     Js.le (Js.splitHead "_" migration) boundary = true).
Proof.
  unfold determineMigrationsToApply. intros H.
  apply filter_In in H as [_ H]. rewrite composePredicates_true in H.
  assert (Hbase : ~ In migration appliedMigrations /\
                  Js.endsWith migration ".apply.sql" = true).
  { split.
    - intros Hin.
      assert (Hp : negb (bool_decide
                (migration ∈ (list_to_set appliedMigrations : gset string))) = true).
      { apply (H (fun m => negb (bool_decide
                   (m ∈ (list_to_set appliedMigrations : gset string))))).
        destruct migrationTimestamp as [[|? ?]|]; simpl; auto using in_or_app, in_eq, in_cons. }
      apply negb_true_iff, bool_decide_eq_false in Hp.
      apply Hp. apply elem_of_list_to_set. now apply list_elem_of_In.
    - apply (H (fun m => Js.endsWith m APPLY_MIGRATION_FILE_SUFFIX)).
      destruct migrationTimestamp as [[|? ?]|]; simpl; auto. }
  destruct Hbase as [H1 H2]. repeat split; [exact H1|exact H2|].
  intros boundary -> Ht. destruct boundary as [|a b]; [discriminate|].
  apply (H (fun m => filterBeforeOrAtTimestamp m (String a b))).
  apply in_or_app. right. now left.
Qed.

Lemma determineMigrationsToApply_selects_witness :
  In "2_posts.apply.sql"
     (determineMigrationsToApply
        ["3_likes.apply.sql"; "2_posts.apply.sql"; "2_posts.revert.sql"; "1_users.apply.sql"]
        ["1_users.apply.sql"] (Some "2")) /\
  ~ In "2_posts.apply.sql" ["1_users.apply.sql"] /\
  Js.endsWith "2_posts.apply.sql" ".apply.sql" = true /\
  (forall boundary, Some "2" = Some boundary -> Js.truthy (Some "2") = true ->
     Js.le (Js.splitHead "_" "2_posts.apply.sql") boundary = true).
Proof.
  assert (H : In "2_posts.apply.sql"
     (determineMigrationsToApply
        ["3_likes.apply.sql"; "2_posts.apply.sql"; "2_posts.revert.sql"; "1_users.apply.sql"]
        ["1_users.apply.sql"] (Some "2"))).
  { vm_compute. now left. }
  split; [exact H|].
  exact (determineMigrationsToApply_selects _ _ _ _ H).
Defined.

(** C4, as the claim states it, fails: the resolver returns the selected
    filenames in the order of the catalog. *)
Lemma determineMigrationsToApply_not_sorted :
  ~ (forall allMigrations appliedMigrations migrationTimestamp,
       StronglySorted (fun a b => Js.le a b = true)
         (determineMigrationsToApply allMigrations appliedMigrations migrationTimestamp)).
Proof.
  intros H.
  specialize (H ["2_posts.apply.sql"; "1_users.apply.sql"] [] None).
  vm_compute in H. inversion H as [|? ? _ Hhd]; subst.
  inversion Hhd as [|? ? Hle _]; subst. discriminate Hle.
Qed.

(** C4, amended. [determineMigrationsToApply] keeps the order of the
    catalog; the order in which [applyMigrations] applies the plan is the
    plan sorted ascending by filename under [localeCompare]. *)
Theorem applyMigrations_sorts_the_plan
    localeCompare allMigrations appliedMigrations migrationTimestamp :
  consistent localeCompare ->
  let plan :=
    determineMigrationsToApply allMigrations appliedMigrations migrationTimestamp in
  sublist plan allMigrations /\
  Permutation plan (applyOrder localeCompare plan) /\
  StronglySorted (notAfter localeCompare) (applyOrder localeCompare plan).
Proof.
  intros Hcmp plan. repeat split.
  - apply filter_sublist.
  - apply sort_Permutation.
  - apply (sort_StronglySorted (fun a b => localeCompare a b)).
    destruct Hcmp as [Ht Htr]. split; [exact Ht|exact Htr].
Qed.

Lemma applyMigrations_sorts_the_plan_witness :
  consistent String.compare /\
  let plan :=
    determineMigrationsToApply
      ["3_likes.apply.sql"; "2_posts.apply.sql"; "2_posts.revert.sql"; "1_users.apply.sql"]
      [] (Some "2") in
  plan = ["2_posts.apply.sql"; "1_users.apply.sql"] /\
  applyOrder String.compare plan = ["1_users.apply.sql"; "2_posts.apply.sql"] /\
  StronglySorted (notAfter String.compare) (applyOrder String.compare plan).
Proof.
  split; [exact String_compare_consistent|].
  repeat split.
  exact (proj2 (proj2 (applyMigrations_sorts_the_plan String.compare
    ["3_likes.apply.sql"; "2_posts.apply.sql"; "2_posts.revert.sql"; "1_users.apply.sql"]
    [] (Some "2") String_compare_consistent))).
Defined.

Lemma determineMigrationsToRevert_checked revertMigrations migrationTimestamp plan :
  determineMigrationsToRevert revertMigrations migrationTimestamp = Ok plan ->
  Forall (fun filename => Js.endsWith filename ".revert.sql" = true) revertMigrations /\
  exists keep, plan = List.filter keep revertMigrations.
Proof.
  unfold determineMigrationsToRevert.
  destruct (forallb _ revertMigrations) eqn:Hall; [|discriminate].
  intros H. split.
  - apply List.Forall_forall. now apply forallb_forall.
  - assert (Hid : revertMigrations = List.filter (fun _ => true) revertMigrations).
    { clear. induction revertMigrations; simpl; congruence. }
    destruct migrationTimestamp as [[|a t]|]; injection H as <-; eauto.
Qed.

(** C6, as the claim states it, fails: the boundary of the down plan is
    not compared as a string.  Key 9 is at least boundary 10 as a string,
    and the resolver drops it. *)
Lemma determineMigrationsToRevert_not_string_comparison :
  ~ (forall revertMigrations boundary,
       boundary <> "" ->
       Forall (fun f => Js.endsWith f ".revert.sql" = true) revertMigrations ->
       determineMigrationsToRevert revertMigrations (Some boundary) =
       Ok (List.filter (fun m => Js.ge (Js.splitHead "_" m) boundary) revertMigrations)).
Proof.
  intros H. specialize (H ["9_a.revert.sql"] "10").
  assert (Hne : "10" <> "") by discriminate.
  assert (Hall : Forall (fun f => Js.endsWith f ".revert.sql" = true) ["9_a.revert.sql"]).
  { repeat constructor. }
  specialize (H Hne Hall). vm_compute in H. discriminate H.
Qed.

(** The boundary filter of the down plan, as the code computes it. *)
Lemma determineMigrationsToRevert_filter revertMigrations boundary :
  boundary <> "" ->
  Forall (fun f => Js.endsWith f ".revert.sql" = true) revertMigrations ->
  determineMigrationsToRevert revertMigrations (Some boundary) =
  Ok (List.filter (fun m => filterAfterOrAtTimestamp m boundary) revertMigrations).
Proof.
  intros Hne Hall. unfold determineMigrationsToRevert.
  assert (Hb : forallb (fun f => Js.endsWith f ".revert.sql") revertMigrations = true).
  { apply forallb_forall. now apply List.Forall_forall. }
  rewrite Hb. destruct boundary as [|a t]; [congruence|reflexivity].
Qed.

(** C6, amended. For revert filenames whose timestamp keys are strings of
    one to fifteen decimal digits and a boundary of one to fifteen decimal
    digits, [determineMigrationsToRevert] retains exactly the filenames
    whose key is at least the boundary as integers: the comparison is
    numeric, not a string comparison.  It agrees with the string
    comparison when every key has the width of the boundary. *)
Theorem determineMigrationsToRevert_numeric_boundary revertMigrations boundary :
  JsNumber.isDecimalKey boundary = true ->
  Forall (fun f => Js.endsWith f ".revert.sql" = true /\
                   JsNumber.isDecimalKey (Js.splitHead "_" f) = true)
         revertMigrations ->
  let numeric := fun m =>
    (JsNumber.decimalValue boundary <=? JsNumber.decimalValue (Js.splitHead "_" m))%Z in
  determineMigrationsToRevert revertMigrations (Some boundary) =
    Ok (List.filter numeric revertMigrations) /\
  (Forall (fun f => String.length (Js.splitHead "_" f) = String.length boundary)
          revertMigrations ->
   List.filter numeric revertMigrations =
   List.filter (fun m => Js.ge (Js.splitHead "_" m) boundary) revertMigrations).
Proof.
  intros Hb Hall numeric. rewrite List.Forall_forall in Hall. split.
  - rewrite determineMigrationsToRevert_filter.
    + f_equal. apply filter_ext_in. intros m Hm.
      apply NumberFacts.ge_Number_decimalKey; [now apply Hall|exact Hb].
    + intros ->. discriminate Hb.
    + apply List.Forall_forall. intros m Hm. now apply Hall.
  - intros Hwidth. rewrite List.Forall_forall in Hwidth.
    apply filter_ext_in. intros m Hm. unfold numeric, Js.ge, String.leb.
    destruct (Hall m Hm) as [_ Hk]. unfold JsNumber.isDecimalKey in Hk, Hb.
    apply andb_true_iff in Hk as [Hk _]. apply andb_true_iff in Hk as [Hk _].
    apply andb_true_iff in Hb as [Hb' _]. apply andb_true_iff in Hb' as [Hb' _].
    rewrite (NumberFacts.compare_decimalDigits boundary (Js.splitHead "_" m) Hb' Hk)
      by (symmetry; now apply Hwidth).
    unfold Z.leb. now destruct (Z.compare _ _).
Qed.

Lemma determineMigrationsToRevert_numeric_boundary_witness :
  JsNumber.isDecimalKey "10" = true /\
  Forall (fun f => Js.endsWith f ".revert.sql" = true /\
                   JsNumber.isDecimalKey (Js.splitHead "_" f) = true)
    ["11_c.revert.sql"; "9_a.revert.sql"; "10_b.revert.sql"] /\
  determineMigrationsToRevert
    ["11_c.revert.sql"; "9_a.revert.sql"; "10_b.revert.sql"] (Some "10") =
  Ok ["11_c.revert.sql"; "10_b.revert.sql"].
Proof.
  assert (Hb : JsNumber.isDecimalKey "10" = true) by reflexivity.
  assert (Hall : Forall (fun f => Js.endsWith f ".revert.sql" = true /\
                   JsNumber.isDecimalKey (Js.splitHead "_" f) = true)
                   ["11_c.revert.sql"; "9_a.revert.sql"; "10_b.revert.sql"]).
  { repeat constructor. }
  split; [exact Hb|]. split; [exact Hall|].
  rewrite (proj1 (determineMigrationsToRevert_numeric_boundary _ _ Hb Hall)).
  reflexivity.
Defined.

(** Beyond fifteen digits [Number] rounds: with the keys of seventeen
    digits of the test suite, a key below the boundary passes the filter. *)
Example filterAfterOrAtTimestamp_rounds :
  filterAfterOrAtTimestamp
    "20230922034400003_create_comments_table.revert.sql" "20230922034400004" = true /\
  Js.ge "20230922034400003" "20230922034400004" = false.
Proof. split; vm_compute; reflexivity. Qed.

(** C8, as the claim states it, fails twice.  With [.revert.] in the slug
    the plan does not map back into the applied list; with [.apply.] in
    the key the substitution changes the keys and the plan is not in
    descending order of key. *)
Lemma downPlan_not_for_every_filename :
  ~ (forall appliedMigrations migrationTimestamp plan,
       downPlan String.compare appliedMigrations migrationTimestamp = Ok plan ->
       incl (map revertToApplied plan) appliedMigrations) /\
  ~ (forall appliedMigrations migrationTimestamp plan,
       downPlan String.compare appliedMigrations migrationTimestamp = Ok plan ->
       StronglySorted
         (fun a b => notAfter String.compare (Js.splitHead "_" b) (Js.splitHead "_" a))
         plan).
Proof.
  split; intros H.
  - specialize (H ["1_a.revert.b.apply.sql"] None ["1_a.revert.b.revert.sql"] eq_refl).
    specialize (H "1_a.apply.b.revert.sql" (or_introl eq_refl)).
    destruct H as [H|[]]. discriminate H.
  - specialize (H ["1.apply.sql"; "1.b.apply.sql"] None
                  ["1.b.revert.sql"; "1.revert.sql"] eq_refl).
    inversion H as [|? ? _ Hhd]; subst.
    inversion Hhd as [|? ? Hle _]; subst. apply Hle. reflexivity.
Qed.

(** C8, amended. For applied filenames that do not contain [.revert.] and
    whose timestamp key does not contain [.apply.], and any boundary: the
    plan that [handleDown] computes maps back, by [.revert.] to [.apply.],
    into the applied list, and is in descending order of timestamp key
    under [localeCompare]. *)
Theorem downPlan_maps_back_descending
    localeCompare appliedMigrations migrationTimestamp plan :
  consistent localeCompare ->
  Forall (fun f => Js.includes ".revert." f = false /\
                   Js.includes ".apply." (Js.splitHead "_" f) = false)
         appliedMigrations ->
  downPlan localeCompare appliedMigrations migrationTimestamp = Ok plan ->
  incl (map revertToApplied plan) appliedMigrations /\
  StronglySorted
    (fun a b => notAfter localeCompare (Js.splitHead "_" b) (Js.splitHead "_" a))
    plan.
Proof.
  intros Hcmp Hwf Hplan. unfold downPlan in Hplan.
  apply determineMigrationsToRevert_checked in Hplan as [_ [keep ->]].
  set (descending := fun a b : string =>
         localeCompare (Js.splitHead "_" b) (Js.splitHead "_" a)) in *.
  assert (Hperm : Permutation appliedMigrations (sortWith descending appliedMigrations))
    by apply sort_Permutation.
  assert (Hin : forall f, In f (sortWith descending appliedMigrations) ->
                          In f appliedMigrations).
  { intros f Hf. eapply Permutation_in; [symmetry; exact Hperm|exact Hf]. }
  rewrite List.Forall_forall in Hwf.
  split.
  - intros back Hback. apply in_map_iff in Hback as (m & <- & Hm).
    apply filter_In in Hm as [Hm _]. apply in_map_iff in Hm as (f & <- & Hf).
    apply Hin in Hf. unfold revertToApplied, appliedToRevertMigration.
    rewrite JsFacts.replace_revert_apply; [exact Hf|]. now apply Hwf.
  - apply StronglySorted_filter_bool.
    apply StronglySorted_map_in with (R := notAfter descending).
    + intros a b Ha Hb Hab.
      rewrite !JsFacts.splitHead_appliedToRevertMigration; [exact Hab| |];
        apply Hwf; now apply Hin.
    + apply sort_StronglySorted. destruct Hcmp as [Ht Htr]. split.
      * intros a b. apply Ht.
      * intros a b c. unfold notAfter, descending. intros Hab Hbc.
        exact (Htr _ _ _ Hbc Hab).
Qed.

Lemma downPlan_maps_back_descending_witness :
  consistent String.compare /\
  Forall (fun f => Js.includes ".revert." f = false /\
                   Js.includes ".apply." (Js.splitHead "_" f) = false)
         ["1_users.apply.sql"; "3_likes.apply.sql"; "2_posts.apply.sql"] /\
  downPlan String.compare
    ["1_users.apply.sql"; "3_likes.apply.sql"; "2_posts.apply.sql"] (Some "2") =
  Ok ["3_likes.revert.sql"; "2_posts.revert.sql"] /\
  incl (map revertToApplied ["3_likes.revert.sql"; "2_posts.revert.sql"])
       ["1_users.apply.sql"; "3_likes.apply.sql"; "2_posts.apply.sql"] /\
  StronglySorted
    (fun a b => notAfter String.compare (Js.splitHead "_" b) (Js.splitHead "_" a))
    ["3_likes.revert.sql"; "2_posts.revert.sql"].
Proof.
  assert (Hwf : Forall (fun f => Js.includes ".revert." f = false /\
                   Js.includes ".apply." (Js.splitHead "_" f) = false)
         ["1_users.apply.sql"; "3_likes.apply.sql"; "2_posts.apply.sql"]).
  { repeat constructor. }
  assert (Hplan : downPlan String.compare
    ["1_users.apply.sql"; "3_likes.apply.sql"; "2_posts.apply.sql"] (Some "2") =
    Ok ["3_likes.revert.sql"; "2_posts.revert.sql"]).
  { vm_compute. reflexivity. }
  split; [exact String_compare_consistent|]. split; [exact Hwf|]. split; [exact Hplan|].
  exact (downPlan_maps_back_descending String.compare _ _ _
           String_compare_consistent Hwf Hplan).
Defined.

(** C7. A filename that does not end with [.revert.sql] makes
    [determineMigrationsToRevert] throw the consistency error, whatever the
    boundary and wherever the name is in the list; and [revertMigration]
    throws it for such a name with the client as it was: no command has
    been sent, nothing has changed in the database. *)
Theorem non_revert_filename_is_rejected
    runScript readFile collate revertMigrations migrationTimestamp filename c :
  In filename revertMigrations ->
  Js.endsWith filename ".revert.sql" = false ->
  determineMigrationsToRevert revertMigrations migrationTimestamp =
    Throw invalidMigrationFile /\
  revertMigration runScript readFile collate filename c = (Throw invalidMigrationFile, c).
Proof.
  intros Hin Hend. split.
  - unfold determineMigrationsToRevert.
    destruct (forallb _ revertMigrations) eqn:Hall; [|reflexivity].
    rewrite forallb_forall in Hall. specialize (Hall _ Hin). congruence.
  - unfold revertMigration, REVERT_MIGRATION_FILE_SUFFIX. rewrite Hend. reflexivity.
Qed.

Lemma non_revert_filename_is_rejected_witness :
  In "1_users.apply.sql" ["9_posts.revert.sql"; "1_users.apply.sql"] /\
  Js.endsWith "1_users.apply.sql" ".revert.sql" = false /\
  determineMigrationsToRevert ["9_posts.revert.sql"; "1_users.apply.sql"] (Some "5") =
    Throw invalidMigrationFile /\
  revertMigration Demo.runScript Demo.readFile Demo.compare "1_users.apply.sql"
    (getClient Demo.migratedDatabase) =
    (Throw invalidMigrationFile, getClient Demo.migratedDatabase).
Proof.
  assert (Hin : In "1_users.apply.sql" ["9_posts.revert.sql"; "1_users.apply.sql"]).
  { right. now left. }
  assert (Hend : Js.endsWith "1_users.apply.sql" ".revert.sql" = false) by reflexivity.
  split; [exact Hin|]. split; [exact Hend|].
  exact (non_revert_filename_is_rejected Demo.runScript Demo.readFile Demo.compare
           _ (Some "5") _ (getClient Demo.migratedDatabase) Hin Hend).
Defined.

(** C10, as the claim states it, fails: a filename with one [.apply.] that
    does not end with [.apply.sql] does not come back. *)
Lemma suffix_round_trip_needs_the_suffix :
  ~ (forall filename,
       Js.occurrences ".apply." filename = 1%nat ->
       Js.includes ".revert." filename = false ->
       applyFilenameOf (appliedToRevertMigration filename) = filename).
Proof.
  intros H. specialize (H "1_a.apply.txt" eq_refl eq_refl). discriminate H.
Qed.

(** C10, amended. For every filename that ends with [.apply.sql], in which
    [.apply.] occurs exactly once and [.revert.] does not occur,
    [appliedToRevertMigration] followed by the derivation of the apply
    filename in [revertMigration] gives the filename back. *)
Theorem suffix_round_trip filename :
  Js.endsWith filename ".apply.sql" = true ->
  Js.occurrences ".apply." filename = 1%nat ->
  Js.includes ".revert." filename = false ->
  applyFilenameOf (appliedToRevertMigration filename) = filename.
Proof.
  intros Hend Hocc Hrev. now apply JsFacts.applyFilenameOf_appliedToRevertMigration.
Qed.

Lemma suffix_round_trip_witness :
  Js.endsWith "20230922034400002_create_posts_table.apply.sql" ".apply.sql" = true /\
  Js.occurrences ".apply." "20230922034400002_create_posts_table.apply.sql" = 1%nat /\
  Js.includes ".revert." "20230922034400002_create_posts_table.apply.sql" = false /\
  applyFilenameOf
    (appliedToRevertMigration "20230922034400002_create_posts_table.apply.sql") =
  "20230922034400002_create_posts_table.apply.sql".
Proof.
  split; [reflexivity|]. split; [reflexivity|]. split; [reflexivity|].
  exact (suffix_round_trip "20230922034400002_create_posts_table.apply.sql"
           eq_refl eq_refl eq_refl).
Defined.

(** Both substitutions replace the first occurrence only: with one of the
    substrings in the slug the round trip fails. *)
Example suffix_round_trip_fails_in_slug :
  applyFilenameOf (appliedToRevertMigration "1_a.revert.sql_b.apply.sql")
    = "1_a.apply.sql_b.revert.sql" /\
  applyFilenameOf (appliedToRevertMigration "1_a.apply.b.apply.sql")
    = "1_a.revert.b.apply.sql".
Proof. split; reflexivity. Qed.

(** ** The execution engine *)

Section AsyncFacts.

Context {A B : Type}.

Lemma bind_Ok (m : async A) (k : A -> async B) c a c' :
  m c = (Ok a, c') -> bind m k c = k a c'.
Proof. unfold bind. now intros ->. Qed.

Lemma bind_Throw (m : async A) (k : A -> async B) c e c' :
  m c = (Throw e, c') -> bind m k c = (Throw e, c').
Proof. unfold bind. now intros ->. Qed.

Lemma tryCatch_Ok (body : async A) handler c a c' :
  body c = (Ok a, c') -> tryCatch body handler c = (Ok a, c').
Proof. unfold tryCatch. now intros ->. Qed.

Lemma tryCatch_Throw (body : async A) handler c e c' :
  body c = (Throw e, c') -> tryCatch body handler c = handler e c'.
Proof. unfold tryCatch. now intros ->. Qed.

End AsyncFacts.

Section EngineFacts.

Variable runScript : string -> database -> result database.
Variable readFile : string -> option string.
Variable collate : string -> string -> comparison.

Lemma query_BEGIN c :
  txn c <> FailedTransaction ->
  query runScript collate BEGIN c =
    (Ok [], Client (committed c) (InTransaction (visible c)) (sent c ++ [BEGIN])).
Proof. destruct c as [d [|w|] log]; intros H; try reflexivity. now destruct H. Qed.

Lemma query_Sql_Ok st w d rows d0 log :
  execute runScript collate st w = Ok (d, rows) ->
  query runScript collate (Sql st) (Client d0 (InTransaction w) log) =
    (Ok rows, Client d0 (InTransaction d) (log ++ [Sql st])).
Proof. intros H. unfold query. cbn [txn committed sent]. now rewrite H. Qed.

Lemma query_Sql_Throw st w e d0 log :
  execute runScript collate st w = Throw e ->
  query runScript collate (Sql st) (Client d0 (InTransaction w) log) =
    (Throw e, Client d0 FailedTransaction (log ++ [Sql st])).
Proof. intros H. unfold query. cbn [txn committed sent]. now rewrite H. Qed.

(** [executeSQL] ends the transaction block it runs in: its own [BEGIN]
    does not nest, and its [COMMIT] commits all the block has done. *)
Lemma executeSQL_commits st c d rows :
  txn c <> FailedTransaction ->
  execute runScript collate st (visible c) = Ok (d, rows) ->
  executeSQL runScript collate st c =
    (Ok rows, Client d NoTransaction (sent c ++ [BEGIN; Sql st; COMMIT])).
Proof.
  intros Ht H. unfold executeSQL.
  erewrite tryCatch_Ok; [reflexivity|].
  erewrite bind_Ok by (apply query_BEGIN; exact Ht).
  erewrite bind_Ok by (apply query_Sql_Ok; exact H).
  cbn. now rewrite <- !app_assoc.
Qed.

Lemma executeSQL_rolls_back st c e :
  txn c <> FailedTransaction ->
  execute runScript collate st (visible c) = Throw e ->
  executeSQL runScript collate st c =
    (Throw e, Client (committed c) NoTransaction (sent c ++ [BEGIN; Sql st; ROLLBACK])).
Proof.
  intros Ht H. unfold executeSQL.
  erewrite tryCatch_Throw.
  2:{ erewrite bind_Ok by (apply query_BEGIN; exact Ht).
      erewrite bind_Throw by (apply query_Sql_Throw; exact H). reflexivity. }
  cbn. now rewrite <- !app_assoc.
Qed.


(** When the script succeeds and the insertion of the record fails, the
    change of the script stays committed. *)
Lemma applyMigration_record_failure filename sql d d' log e :
  filename <> "" ->
  readFile filename = Some sql ->
  runScript sql d = Ok d' ->
  execute runScript collate (InsertMigration filename) d' = Throw e ->
  applyMigration runScript readFile collate filename (Client d NoTransaction log) =
    (Throw e,
     Client d' NoTransaction
       (log ++ [BEGIN; BEGIN; Sql (Script sql); COMMIT;
                BEGIN; Sql (InsertMigration filename); ROLLBACK; ROLLBACK])).
Proof.
  intros Hne Hfile Hrun Hins. destruct filename as [|a f]; [congruence|].
  unfold applyMigration, executeInTransaction, readMigrationContent.
  cbn [Js.truthy negb]. rewrite Hfile.
  erewrite tryCatch_Throw.
  2:{ erewrite bind_Ok by reflexivity.
      erewrite bind_Throw; [reflexivity|].
      erewrite bind_Ok by reflexivity.
      erewrite bind_Ok.
      2:{ apply executeSQL_commits; [discriminate|]. cbn. now rewrite Hrun. }
      apply executeSQL_rolls_back; [discriminate|exact Hins]. }
  cbn. now rewrite <- !app_assoc.
Qed.

(** When the script of the revert unit succeeds and the deletion of the
    record fails, the change of the script stays committed:
    [revertMigration] runs its two steps in two transactions. *)
Lemma revertMigration_delete_failure filename sql d d' log e :
  Js.endsWith filename ".revert.sql" = true ->
  readFile filename = Some sql ->
  runScript sql d = Ok d' ->
  execute runScript collate (DeleteMigration (applyFilenameOf filename)) d' = Throw e ->
  revertMigration runScript readFile collate filename (Client d NoTransaction log) =
    (Throw e,
     Client d' NoTransaction
       (log ++ [BEGIN; Sql (Script sql); COMMIT;
                BEGIN; Sql (DeleteMigration (applyFilenameOf filename)); ROLLBACK])).
Proof.
  intros Hend Hfile Hrun Hdel.
  unfold revertMigration, readMigrationContent, REVERT_MIGRATION_FILE_SUFFIX.
  rewrite Hend, Hfile. cbn [negb].
  erewrite bind_Ok by reflexivity.
  erewrite bind_Ok.
  2:{ apply executeSQL_commits; [discriminate|]. cbn. now rewrite Hrun. }
  erewrite bind_Throw.
  2:{ apply executeSQL_rolls_back; [discriminate|exact Hdel]. }
  cbn. now rewrite <- !app_assoc.
Qed.

Lemma hasMigrationsTable_created tbls rows :
  hasMigrationsTable (Database (<["migrations" := migrationsColumns]> tbls) rows) = true.
Proof.
  unfold hasMigrationsTable. apply bool_decide_eq_true. cbn [tables].
  rewrite lookup_insert_eq. eauto.
Qed.

Lemma query_exists c :
  txn c <> FailedTransaction ->
  query runScript collate (Sql SelectMigrationsTableExists) c =
    (Ok [RowExists (hasMigrationsTable (visible c))],
     Client (committed c) (txn c) (sent c ++ [Sql SelectMigrationsTableExists])).
Proof. destruct c as [d [|w|] log]; intros H; try reflexivity. now destruct H. Qed.

(** [handleSetup] when the table is there: one query, nothing else. *)
Lemma handleSetup_skips c :
  txn c <> FailedTransaction ->
  hasMigrationsTable (visible c) = true ->
  handleSetup runScript collate c =
    (Ok tt, Client (committed c) (txn c) (sent c ++ [Sql SelectMigrationsTableExists])).
Proof.
  intros Ht Hex. unfold handleSetup, doesMigrationsTableExist.
  erewrite bind_Ok.
  2:{ erewrite bind_Ok by (apply query_exists; exact Ht). rewrite Hex. reflexivity. }
  reflexivity.
Qed.

(** [handleSetup] when the table is not there: it is created and the
    block of the session, if any, is committed. *)
Lemma handleSetup_creates c :
  txn c <> FailedTransaction ->
  hasMigrationsTable (visible c) = false ->
  handleSetup runScript collate c =
    (Ok tt,
     Client (Database (<["migrations" := migrationsColumns]> (tables (visible c))) [])
       NoTransaction
       (sent c ++ [Sql SelectMigrationsTableExists; BEGIN;
                   Sql CreateMigrationsTable; COMMIT])).
Proof.
  intros Ht Hex. unfold handleSetup, doesMigrationsTableExist, createMigrationsTable.
  erewrite bind_Ok.
  2:{ erewrite bind_Ok by (apply query_exists; exact Ht). rewrite Hex. reflexivity. }
  cbn iota.
  erewrite bind_Ok.
  2:{ apply executeSQL_commits.
      - exact Ht.
      - cbn [execute]. unfold visible in *. cbn [txn committed] in *.
        rewrite Hex. reflexivity. }
  cbn. now rewrite <- !app_assoc.
Qed.

End EngineFacts.

(** C9. On a client whose transaction block has not failed, [handleSetup]
    succeeds, and a second call right after it succeeds too and only sends
    the query that looks the table up: the database, committed and
    in progress, is what the first call left, so the schema of the
    bookkeeping table is the same and no table is created. *)
Theorem handleSetup_idempotent runScript collate c :
  txn c <> FailedTransaction ->
  exists c1,
    handleSetup runScript collate c = (Ok tt, c1) /\
    hasMigrationsTable (visible c1) = true /\
    handleSetup runScript collate c1 =
      (Ok tt, Client (committed c1) (txn c1)
                (sent c1 ++ [Sql SelectMigrationsTableExists])).
Proof.
  intros Ht. destruct (hasMigrationsTable (visible c)) eqn:Hex.
  - eexists. split; [now apply handleSetup_skips|]. split; [exact Hex|].
    now apply handleSetup_skips.
  - eexists. split; [now apply handleSetup_creates|].
    assert (Hnow : forall log,
      hasMigrationsTable (visible
        (Client (Database (<["migrations" := migrationsColumns]> (tables (visible c))) [])
           NoTransaction log)) = true).
    { intros log. apply hasMigrationsTable_created. }
    split; [apply Hnow|]. apply handleSetup_skips; [discriminate|apply Hnow].
Qed.

Lemma handleSetup_idempotent_witness :
  txn (getClient Demo.emptyDatabase) <> FailedTransaction /\
  exists c1,
    handleSetup Demo.runScript Demo.compare (getClient Demo.emptyDatabase) = (Ok tt, c1) /\
    hasMigrationsTable (visible c1) = true /\
    handleSetup Demo.runScript Demo.compare c1 =
      (Ok tt, Client (committed c1) (txn c1)
                (sent c1 ++ [Sql SelectMigrationsTableExists])).
Proof.
  assert (Ht : txn (getClient Demo.emptyDatabase) <> FailedTransaction) by discriminate.
  split; [exact Ht|].
  exact (handleSetup_idempotent Demo.runScript Demo.compare
           (getClient Demo.emptyDatabase) Ht).
Defined.

(** C1 fails on the code.  On a database without the migrations table the
    script of the unit creates its table, the insertion of the record
    fails, and the table stays: [executeSQL] has committed the block that
    [executeInTransaction] opened. *)
Theorem applyMigration_commits_script_without_record :
  applyMigration Demo.runScript Demo.readFile Demo.compare "1_users.apply.sql"
    (getClient Demo.emptyDatabase) =
  (Throw undefined_table,
   Client (Database {["users" := []]} []) NoTransaction
     [BEGIN; BEGIN; Sql (Script "CREATE TABLE users"); COMMIT;
      BEGIN; Sql (InsertMigration "1_users.apply.sql"); ROLLBACK; ROLLBACK]).
Proof. vm_compute. reflexivity. Qed.

(** C2 fails on the code.  [revertMigration] opens no transaction around
    its two steps: the script drops its table and commits, the deletion of
    the record fails, and the table stays dropped. *)
Theorem revertMigration_commits_script_without_delete :
  revertMigration Demo.runScript Demo.readFile Demo.compare "1_users.revert.sql"
    (getClient (Database {["users" := []]} [])) =
  (Throw undefined_table,
   Client Demo.emptyDatabase NoTransaction
     [BEGIN; Sql (Script "DROP TABLE users"); COMMIT;
      BEGIN; Sql (DeleteMigration "1_users.apply.sql"); ROLLBACK]).
Proof. vm_compute. reflexivity. Qed.

(** C5 fails on the code.  [main] calls [handleDown] without the boundary:
    the command [down 2] reverts the unit of key 1 too, where [handleDown]
    with boundary 2 keeps it. *)
Theorem main_down_ignores_the_boundary :
  committed
    (main Demo.runScript Demo.readFile Demo.readdir Demo.compare Demo.compare
       ["down"; "2"] Demo.migratedDatabase) =
  Database {["migrations" := migrationsColumns]} [] /\
  committed
    (snd (handleDown Demo.runScript Demo.readFile Demo.compare Demo.compare (Some "2")
            (getClient Demo.migratedDatabase))) =
  Database (<["users" := []]> {["migrations" := migrationsColumns]})
    ["1_users.apply.sql"].
Proof. split; vm_compute; reflexivity. Qed.

(** * Further properties of the program *)

(** ** The up plan *)

Lemma arrayIncludes_In array x : arrayIncludes array x = true <-> In x array.
Proof.
  unfold arrayIncludes. rewrite existsb_exists. split.
  - intros (y & Hy & Heq). apply String.eqb_eq in Heq. now subst.
  - intros H. exists x. split; [exact H|apply String.eqb_refl].
Qed.

Lemma arrayIncludes_set array x :
  bool_decide (x ∈ (list_to_set array : gset string)) = arrayIncludes array x.
Proof.
  destruct (arrayIncludes array x) eqn:E.
  - apply bool_decide_eq_true. apply elem_of_list_to_set, list_elem_of_In.
    now apply arrayIncludes_In.
  - apply bool_decide_eq_false. intros H.
    apply elem_of_list_to_set, list_elem_of_In, arrayIncludes_In in H. congruence.
Qed.

(** The resolver as one filter. *)
Lemma determineMigrationsToApply_filter allMigrations appliedMigrations migrationTimestamp :
  determineMigrationsToApply allMigrations appliedMigrations migrationTimestamp =
  List.filter
    (fun m => Js.endsWith m ".apply.sql" && negb (arrayIncludes appliedMigrations m)
              && withinBoundary migrationTimestamp m)
    allMigrations.
Proof.
  unfold determineMigrationsToApply. apply filter_ext. intros m.
  unfold composePredicates, withinBoundary, APPLY_MIGRATION_FILE_SUFFIX.
  destruct migrationTimestamp as [[|a t]|]; cbn [app forallb];
    rewrite arrayIncludes_set, ?andb_true_r, ?andb_assoc; reflexivity.
Qed.

Lemma determineMigrationsToApply_In allMigrations appliedMigrations migrationTimestamp m :
  In m (determineMigrationsToApply allMigrations appliedMigrations migrationTimestamp) <->
  In m allMigrations /\ Js.endsWith m ".apply.sql" = true /\
  ~ In m appliedMigrations /\ withinBoundary migrationTimestamp m = true.
Proof.
  rewrite determineMigrationsToApply_filter, filter_In, !andb_true_iff, negb_true_iff.
  split.
  - intros (H1 & (H2 & H3) & H4). repeat split; try assumption.
    intros Hin. apply arrayIncludes_In in Hin. congruence.
  - intros (H1 & H2 & H3 & H4). repeat split; try assumption.
    destruct (arrayIncludes appliedMigrations m) eqn:E; [|reflexivity].
    apply arrayIncludes_In in E. contradiction.
Qed.

Lemma filter_sublist_impl {A} (p q : A -> bool) l :
  (forall x, In x l -> p x = true -> q x = true) ->
  sublist (List.filter p l) (List.filter q l).
Proof.
  induction l as [|x l IH]; intros H; simpl; [constructor|].
  assert (IH' : sublist (List.filter p l) (List.filter q l)).
  { apply IH. intros y Hy. apply H. now right. }
  destruct (p x) eqn:Hp.
  - rewrite (H x (or_introl eq_refl) Hp). now constructor.
  - destruct (q x); [now constructor|exact IH'].
Qed.

(** X1. The plan of [determineMigrationsToApply] holds exactly the
    filenames of the catalog that end with [.apply.sql], are not in the
    applied list and pass the boundary: no pending unit is left out. *)
Theorem determineMigrationsToApply_exactly
    allMigrations appliedMigrations migrationTimestamp migration :
  In migration
     (determineMigrationsToApply allMigrations appliedMigrations migrationTimestamp) <->
  In migration allMigrations /\
  Js.endsWith migration ".apply.sql" = true /\
  ~ In migration appliedMigrations /\
  (forall boundary, migrationTimestamp = Some boundary -> boundary <> "" ->
     Js.le (Js.splitHead "_" migration) boundary = true).
Proof.
  rewrite determineMigrationsToApply_In. unfold withinBoundary, filterBeforeOrAtTimestamp.
  split; intros (H1 & H2 & H3 & H4); repeat split; try assumption.
  - intros boundary -> Hne. destruct boundary; [congruence|exact H4].
  - destruct migrationTimestamp as [[|a t]|]; try reflexivity.
    now apply H4.
Qed.

(** X2. Once the units of a plan are recorded, the plan is empty: whatever
    list of applied filenames holds the former ones and the plan, the
    resolver finds nothing more to apply under the same boundary. *)
Theorem determineMigrationsToApply_nothing_left
    allMigrations appliedMigrations migrationTimestamp appliedAfter :
  incl appliedMigrations appliedAfter ->
  incl (determineMigrationsToApply allMigrations appliedMigrations migrationTimestamp)
       appliedAfter ->
  determineMigrationsToApply allMigrations appliedAfter migrationTimestamp = [].
Proof.
  intros Hold Hplan.
  destruct (determineMigrationsToApply allMigrations appliedAfter migrationTimestamp)
    as [|m rest] eqn:E; [reflexivity|].
  assert (Hm : In m (determineMigrationsToApply allMigrations appliedAfter
                       migrationTimestamp)) by (rewrite E; now left).
  apply determineMigrationsToApply_In in Hm as (H1 & H2 & H3 & H4).
  exfalso. apply H3. apply Hplan. apply determineMigrationsToApply_In.
  repeat split; try assumption. intros Hin. apply H3. now apply Hold.
Qed.

Lemma determineMigrationsToApply_nothing_left_witness :
  incl ["1_users.apply.sql"] ["1_users.apply.sql"; "2_posts.apply.sql"] /\
  incl (determineMigrationsToApply
          ["2_posts.apply.sql"; "1_users.apply.sql"; "3_likes.apply.sql"]
          ["1_users.apply.sql"] (Some "2"))
       ["1_users.apply.sql"; "2_posts.apply.sql"] /\
  determineMigrationsToApply
    ["2_posts.apply.sql"; "1_users.apply.sql"; "3_likes.apply.sql"]
    ["1_users.apply.sql"; "2_posts.apply.sql"] (Some "2") = [].
Proof.
  assert (H1 : incl ["1_users.apply.sql"] ["1_users.apply.sql"; "2_posts.apply.sql"]).
  { intros x [<-|[]]. now left. }
  assert (H2 : incl (determineMigrationsToApply
          ["2_posts.apply.sql"; "1_users.apply.sql"; "3_likes.apply.sql"]
          ["1_users.apply.sql"] (Some "2"))
       ["1_users.apply.sql"; "2_posts.apply.sql"]).
  { vm_compute. intros x [<-|[]]. right. now left. }
  split; [exact H1|]. split; [exact H2|].
  exact (determineMigrationsToApply_nothing_left _ _ _ _ H1 H2).
Defined.

(** X3. A lower boundary gives a smaller plan: for two non-empty
    boundaries in string order, the plan up to the lower one is a sublist
    of the plan up to the higher one, which is a sublist of the plan
    without boundary. *)
Theorem determineMigrationsToApply_boundary_monotone
    allMigrations appliedMigrations lower higher :
  lower <> "" ->
  Js.le lower higher = true ->
  sublist (determineMigrationsToApply allMigrations appliedMigrations (Some lower))
          (determineMigrationsToApply allMigrations appliedMigrations (Some higher)) /\
  sublist (determineMigrationsToApply allMigrations appliedMigrations (Some higher))
          (determineMigrationsToApply allMigrations appliedMigrations None).
Proof.
  intros Hne Hle. rewrite !determineMigrationsToApply_filter. split.
  - apply filter_sublist_impl. intros m _ H.
    apply andb_true_iff in H as [H Hb]. rewrite H. cbn [andb].
    destruct lower as [|a t]; [congruence|].
    destruct higher as [|b u]; [discriminate Hle|].
    unfold withinBoundary, filterBeforeOrAtTimestamp, Js.le, String.leb in *.
    pose proof (consistent_trans _ String_compare_consistent
                  (Js.splitHead "_" m) (String a t) (String b u)) as Htr.
    unfold notAfter in Htr.
    destruct (String.compare (Js.splitHead "_" m) (String a t)) eqn:E1;
      try discriminate Hb;
      destruct (String.compare (String a t) (String b u)) eqn:E2;
      try discriminate Hle;
      destruct (String.compare (Js.splitHead "_" m) (String b u)) eqn:E3;
      try reflexivity; exfalso; apply Htr; congruence.
  - apply filter_sublist_impl. intros m _ H.
    apply andb_true_iff in H as [H _]. now rewrite H.
Qed.

Lemma determineMigrationsToApply_boundary_monotone_witness :
  "1" <> "" /\ Js.le "1" "2" = true /\
  sublist (determineMigrationsToApply
             ["3_likes.apply.sql"; "2_posts.apply.sql"; "1_users.apply.sql"] [] (Some "1"))
          (determineMigrationsToApply
             ["3_likes.apply.sql"; "2_posts.apply.sql"; "1_users.apply.sql"] [] (Some "2")) /\
  sublist (determineMigrationsToApply
             ["3_likes.apply.sql"; "2_posts.apply.sql"; "1_users.apply.sql"] [] (Some "2"))
          (determineMigrationsToApply
             ["3_likes.apply.sql"; "2_posts.apply.sql"; "1_users.apply.sql"] [] None).
Proof.
  assert (Hne : "1" <> "") by discriminate.
  assert (Hle : Js.le "1" "2" = true) by reflexivity.
  split; [exact Hne|]. split; [exact Hle|].
  exact (determineMigrationsToApply_boundary_monotone _ _ _ _ Hne Hle).
Defined.

(** X4. The older filter of migrate.utils.js agrees with the resolver on
    every non-empty boundary, and returns nothing when the timestamp is
    [undefined], where the resolver returns every pending unit. *)
Theorem filterMigrationsToTimestamp_agrees allMigrations appliedMigrations boundary :
  boundary <> "" ->
  filterMigrationsToTimestamp allMigrations appliedMigrations (Some boundary) =
  determineMigrationsToApply allMigrations appliedMigrations (Some boundary) /\
  filterMigrationsToTimestamp allMigrations appliedMigrations None = [].
Proof.
  intros Hne. split.
  - rewrite determineMigrationsToApply_filter.
    unfold filterMigrationsToTimestamp, filterMigrations. apply filter_ext. intros m.
    destruct boundary as [|a t]; [congruence|].
    unfold withinBoundary, filterBeforeOrAtTimestamp.
    destruct (Js.endsWith m ".apply.sql"), (arrayIncludes appliedMigrations m),
      (Js.le (Js.splitHead "_" m) (String a t)); reflexivity.
  - unfold filterMigrationsToTimestamp, filterMigrations.
    induction allMigrations as [|m l IH]; [reflexivity|].
    cbn [List.filter]. rewrite IH. now rewrite andb_false_r.
Qed.

Lemma filterMigrationsToTimestamp_agrees_witness :
  "2" <> "" /\
  filterMigrationsToTimestamp
    ["3_likes.apply.sql"; "2_posts.apply.sql"; "1_users.apply.sql"]
    ["1_users.apply.sql"] (Some "2") = ["2_posts.apply.sql"] /\
  determineMigrationsToApply
    ["3_likes.apply.sql"; "2_posts.apply.sql"; "1_users.apply.sql"]
    ["1_users.apply.sql"] (Some "2") = ["2_posts.apply.sql"].
Proof.
  assert (Hne : "2" <> "") by discriminate.
  split; [exact Hne|].
  rewrite <- (proj1 (filterMigrationsToTimestamp_agrees
    ["3_likes.apply.sql"; "2_posts.apply.sql"; "1_users.apply.sql"]
    ["1_users.apply.sql"] "2" Hne)).
  split; reflexivity.
Defined.

(** ** The down plan *)

Lemma appliedToRevertMigration_endsWith : forall filename,
  Js.endsWith filename ".apply.sql" = true ->
  Js.occurrences ".apply." filename = 1%nat ->
  Js.endsWith (appliedToRevertMigration filename) ".revert.sql" = true.
Proof.
  unfold appliedToRevertMigration.
  induction filename as [|c s IH]; intros Hend Hocc; [discriminate|].
  rewrite JsFacts.occurrences_cons in Hocc. rewrite JsFacts.endsWith_cons in Hend.
  rewrite JsFacts.replace_eq.
  destruct (String.prefix ".apply." (String c s)) eqn:Ha.
  - destruct (String.eqb_spec (String c s) ".apply.sql") as [->|Hne]; [reflexivity|].
    cbn [orb] in Hend.
    apply (JsFacts.endsWith_includes ".apply." ".apply.sql" eq_refl) in Hend.
    apply JsFacts.includes_occurrences in Hend. lia.
  - destruct (String.eqb_spec (String c s) ".apply.sql") as [Heq|Hne].
    { rewrite Heq in Ha. discriminate. }
    cbn [orb] in Hend. rewrite JsFacts.endsWith_cons.
    rewrite IH; [apply orb_true_r|exact Hend|cbn in Hocc; lia].
Qed.

Lemma filter_true {A} (l : list A) : List.filter (fun _ => true) l = l.
Proof. induction l; simpl; congruence. Qed.

Lemma filter_idem {A} (p : A -> bool) l : List.filter p (List.filter p l) = List.filter p l.
Proof.
  induction l as [|x l IH]; [reflexivity|]. simpl.
  destruct (p x) eqn:E; [|exact IH]. simpl. now rewrite E, IH.
Qed.

Lemma forallb_filter {A} (p q : A -> bool) l :
  forallb p l = true -> forallb p (List.filter q l) = true.
Proof.
  rewrite !forallb_forall. intros H x Hx. apply filter_In in Hx as [Hx _]. now apply H.
Qed.

(** X5. When [determineMigrationsToRevert] returns a plan, the plan is a
    sublist of the filenames given, every filename of it ends with
    [.revert.sql], and the resolver maps the plan to itself under the same
    boundary. *)
Theorem determineMigrationsToRevert_plan revertMigrations migrationTimestamp plan :
  determineMigrationsToRevert revertMigrations migrationTimestamp = Ok plan ->
  sublist plan revertMigrations /\
  Forall (fun filename => Js.endsWith filename ".revert.sql" = true) plan /\
  determineMigrationsToRevert plan migrationTimestamp = Ok plan.
Proof.
  unfold determineMigrationsToRevert.
  destruct (forallb _ revertMigrations) eqn:Hall; [|discriminate].
  destruct migrationTimestamp as [[|a t]|]; intros H; injection H as <-.
  - rewrite Hall. repeat split; [reflexivity|].
    apply List.Forall_forall. now apply forallb_forall.
  - rewrite (forallb_filter _ _ _ Hall), filter_idem. repeat split.
    + apply filter_sublist.
    + apply List.Forall_forall. apply forallb_forall. now apply forallb_filter.
  - rewrite Hall. repeat split; [reflexivity|].
    apply List.Forall_forall. now apply forallb_forall.
Qed.

Lemma determineMigrationsToRevert_plan_witness :
  determineMigrationsToRevert ["11_c.revert.sql"; "9_a.revert.sql"] (Some "10") =
    Ok ["11_c.revert.sql"] /\
  sublist ["11_c.revert.sql"] ["11_c.revert.sql"; "9_a.revert.sql"] /\
  Forall (fun filename => Js.endsWith filename ".revert.sql" = true) ["11_c.revert.sql"] /\
  determineMigrationsToRevert ["11_c.revert.sql"] (Some "10") = Ok ["11_c.revert.sql"].
Proof.
  assert (H : determineMigrationsToRevert ["11_c.revert.sql"; "9_a.revert.sql"] (Some "10") =
              Ok ["11_c.revert.sql"]) by (vm_compute; reflexivity).
  split; [exact H|].
  exact (determineMigrationsToRevert_plan _ _ _ H).
Defined.

(** X6. For applied filenames that end with [.apply.sql] and contain
    [.apply.] once, the self-check of the down plan passes: [downPlan]
    returns a plan, whatever the boundary and the collation, and without
    boundary the plan holds the revert name of every applied filename. *)
Theorem downPlan_passes_self_check localeCompare appliedMigrations migrationTimestamp :
  Forall (fun f => Js.endsWith f ".apply.sql" = true /\
                   Js.occurrences ".apply." f = 1%nat) appliedMigrations ->
  exists plan,
    downPlan localeCompare appliedMigrations migrationTimestamp = Ok plan /\
    (Js.truthy migrationTimestamp = false ->
     Permutation (map appliedToRevertMigration appliedMigrations) plan).
Proof.
  intros Hwf. rewrite List.Forall_forall in Hwf. unfold downPlan.
  set (sorted := sortMigrationsInDescendingOrder localeCompare appliedMigrations).
  assert (Hperm : Permutation appliedMigrations sorted) by apply sort_Permutation.
  unfold determineMigrationsToRevert.
  assert (Hall : forallb (fun filename => Js.endsWith filename ".revert.sql")
                   (map appliedToRevertMigration sorted) = true).
  { apply forallb_forall. intros m Hm. apply in_map_iff in Hm as (f & <- & Hf).
    apply (Permutation_in _ (Permutation_sym Hperm)) in Hf.
    destruct (Hwf f Hf). now apply appliedToRevertMigration_endsWith. }
  rewrite Hall.
  destruct migrationTimestamp as [[|a t]|]; eexists; (split; [reflexivity|]);
    intros Ht; try discriminate Ht; now apply Permutation_map.
Qed.

Lemma downPlan_passes_self_check_witness :
  Forall (fun f => Js.endsWith f ".apply.sql" = true /\
                   Js.occurrences ".apply." f = 1%nat)
    ["1_users.apply.sql"; "2_posts.apply.sql"] /\
  exists plan,
    downPlan String.compare ["1_users.apply.sql"; "2_posts.apply.sql"] None = Ok plan /\
    (Js.truthy None = false ->
     Permutation
       (map appliedToRevertMigration ["1_users.apply.sql"; "2_posts.apply.sql"]) plan).
Proof.
  assert (Hwf : Forall (fun f => Js.endsWith f ".apply.sql" = true /\
                   Js.occurrences ".apply." f = 1%nat)
    ["1_users.apply.sql"; "2_posts.apply.sql"]) by (repeat constructor).
  split; [exact Hwf|].
  exact (downPlan_passes_self_check String.compare _ None Hwf).
Defined.

(** ** The session and the two transaction helpers *)

Section SessionFacts.

Variable runScript : string -> database -> result database.
Variable collate : string -> string -> comparison.

Lemma query_COMMIT c :
  query runScript collate COMMIT c =
    (Ok [], Client (match txn c with InTransaction w => w | _ => committed c end)
              NoTransaction (sent c ++ [COMMIT])).
Proof. destruct c as [d [|w|] log]; reflexivity. Qed.

Lemma query_ROLLBACK c :
  query runScript collate ROLLBACK c =
    (Ok [], Client (committed c) NoTransaction (sent c ++ [ROLLBACK])).
Proof. destruct c as [d [|w|] log]; reflexivity. Qed.

Lemma executeInTransaction_closes {A} (action : async A) (c : client) :
  txn (snd (executeInTransaction runScript collate action c)) = NoTransaction.
Proof.
  unfold executeInTransaction, tryCatch, bind.
  destruct (query runScript collate BEGIN c) as [[rows|e] c1] eqn:E1.
  - destruct (action c1) as [[a|e2] c2] eqn:E2.
    + rewrite query_COMMIT. reflexivity.
    + rewrite query_ROLLBACK. reflexivity.
  - rewrite query_ROLLBACK. reflexivity.
Qed.

(** X7. Whatever the statement, the action and the state of the client,
    [executeSQL] and [executeInTransaction] leave the session outside a
    transaction block, whether they return or throw. *)
Theorem helpers_close_the_block {A} (st : statement) (action : async A) (c : client) :
  txn (snd (executeSQL runScript collate st c)) = NoTransaction /\
  txn (snd (executeInTransaction runScript collate action c)) = NoTransaction.
Proof.
  split; [|apply executeInTransaction_closes].
  unfold executeSQL, tryCatch, bind.
  destruct (query runScript collate BEGIN c) as [[rows|e] c1] eqn:E1.
  - destruct (query runScript collate (Sql st) c1) as [[rows2|e2] c2] eqn:E2.
    + rewrite query_COMMIT. reflexivity.
    + rewrite query_ROLLBACK. reflexivity.
  - rewrite query_ROLLBACK. reflexivity.
Qed.

Lemma queryAll_in_block : forall statements w d0 log,
  let rc := queryAll runScript collate statements (Client d0 (InTransaction w) log) in
  committed (snd rc) = d0 /\
  match executeAll runScript collate statements w with
  | Ok w' => fst rc = Ok tt /\ txn (snd rc) = InTransaction w'
  | Throw e => fst rc = Throw e /\ txn (snd rc) = FailedTransaction
  end.
Proof.
  induction statements as [|st rest IH]; intros w d0 log; cbn zeta.
  - cbn. auto.
  - unfold queryAll. cbn [forOf executeAll]. fold (queryAll runScript collate rest).
    destruct (execute runScript collate st w) as [[w1 rows]|e] eqn:E.
    + erewrite bind_Ok.
      2:{ erewrite bind_Ok by (apply query_Sql_Ok; exact E). reflexivity. }
      apply IH.
    + erewrite bind_Throw.
      2:{ erewrite bind_Throw by (apply query_Sql_Throw; exact E). reflexivity. }
      cbn. auto.
Qed.

(** X8. [executeInTransaction] is atomic for an action that sends its
    statements with [client.query]: from a client outside a block, either
    every statement runs and the outcome is committed, or the first error
    is thrown and the committed database is as it was. *)
Theorem executeInTransaction_atomic statements d log :
  let rc := executeInTransaction runScript collate
              (queryAll runScript collate statements) (Client d NoTransaction log) in
  txn (snd rc) = NoTransaction /\
  match executeAll runScript collate statements d with
  | Ok d' => fst rc = Ok tt /\ committed (snd rc) = d'
  | Throw e => fst rc = Throw e /\ committed (snd rc) = d
  end.
Proof.
  cbn zeta. split; [apply executeInTransaction_closes|].
  set (c0 := Client d (InTransaction d) (log ++ [BEGIN])).
  assert (Hbegin : query runScript collate BEGIN (Client d NoTransaction log) = (Ok [], c0))
    by reflexivity.
  pose proof (queryAll_in_block statements d d (log ++ [BEGIN])) as [Hc Hr].
  cbn zeta in Hc, Hr. fold c0 in Hc, Hr.
  destruct (queryAll runScript collate statements c0) as [r c1] eqn:Eq.
  cbn [fst snd] in Hc, Hr. unfold executeInTransaction.
  destruct (executeAll runScript collate statements d) as [d'|e].
  - destruct Hr as [-> Ht].
    erewrite tryCatch_Ok.
    2:{ erewrite bind_Ok by exact Hbegin. erewrite bind_Ok by exact Eq.
        erewrite bind_Ok by apply query_COMMIT. reflexivity. }
    cbn. rewrite Ht. auto.
  - destruct Hr as [-> Ht].
    erewrite tryCatch_Throw.
    2:{ erewrite bind_Ok by exact Hbegin. erewrite bind_Throw by exact Eq. reflexivity. }
    erewrite bind_Ok by apply query_ROLLBACK. cbn. auto.
Qed.

End SessionFacts.

(** ** Runs of the engine *)

Lemma omap_rowFilename l : omap rowFilename (map RowFilename l) = l.
Proof. induction l as [|x l IH]; [reflexivity|]. cbn. now rewrite IH. Qed.





Section RunFacts.

Variable runScript : string -> database -> result database.
Variable readFile : string -> option string.
Variable readdir : result (list string).
Variable collate : string -> string -> comparison.
Variable localeCompare : string -> string -> comparison.

Lemma query_select c :
  txn c <> FailedTransaction ->
  hasMigrationsTable (visible c) = true ->
  query runScript collate (Sql SelectAppliedFilenames) c =
    (Ok (map RowFilename (sortWith collate (filenames (visible c)))),
     Client (committed c) (txn c) (sent c ++ [Sql SelectAppliedFilenames])).
Proof.
  destruct c as [d [|w|] log]; intros Ht Hex; [| |now destruct Ht];
    unfold visible in *; cbn in Hex |- *; unfold query; cbn; now rewrite Hex.
Qed.

Lemma getAppliedMigrations_Ok c :
  txn c <> FailedTransaction ->
  hasMigrationsTable (visible c) = true ->
  getAppliedMigrations runScript collate c =
    (Ok (sortWith collate (filenames (visible c))),
     Client (committed c) (txn c) (sent c ++ [Sql SelectAppliedFilenames])).
Proof.
  intros Ht Hex. unfold getAppliedMigrations.
  erewrite tryCatch_Ok; [reflexivity|].
  erewrite bind_Ok by (now apply query_select).
  cbn [ret]. now rewrite omap_rowFilename.
Qed.

Lemma getAppliedMigrations_no_table d log :
  hasMigrationsTable d = false ->
  getAppliedMigrations runScript collate (Client d NoTransaction log) =
    (Throw undefined_table, Client d NoTransaction (log ++ [Sql SelectAppliedFilenames])).
Proof.
  intros Hex. unfold getAppliedMigrations.
  erewrite tryCatch_Throw; [reflexivity|].
  erewrite bind_Throw; [reflexivity|].
  unfold query. cbn. now rewrite Hex.
Qed.

(** X9. [getAppliedMigrations] returns the recorded filenames, each as
    often as it is recorded, in ascending order of the collation of the
    database, and changes nothing in the database. *)
Theorem getAppliedMigrations_sorted_records c :
  consistent collate ->
  txn c <> FailedTransaction ->
  hasMigrationsTable (visible c) = true ->
  exists applied,
    getAppliedMigrations runScript collate c =
      (Ok applied,
       Client (committed c) (txn c) (sent c ++ [Sql SelectAppliedFilenames])) /\
    Permutation (filenames (visible c)) applied /\
    StronglySorted (notAfter collate) applied.
Proof.
  intros Hcmp Ht Hex. eexists. split; [now apply getAppliedMigrations_Ok|]. split.
  - apply sort_Permutation.
  - now apply sort_StronglySorted.
Qed.





Lemma tryCatch_rethrow {A} (body : async A) c :
  tryCatch body (fun error => throw error) c = body c.
Proof. unfold tryCatch, throw. now destruct (body c) as [[a|e] c']. Qed.





(** X12. Without the bookkeeping table nothing is run: [handleUp] and
    [handleDown] throw the error of their first query, undefined table,
    and the database is as it was. *)
Theorem handlers_need_the_table allMigrations migrationTimestamp d log :
  readdir = Ok allMigrations ->
  hasMigrationsTable d = false ->
  handleUp runScript readFile readdir collate localeCompare migrationTimestamp
    (Client d NoTransaction log) =
    (Throw undefined_table,
     Client d NoTransaction (log ++ [Sql SelectAppliedFilenames])) /\
  handleDown runScript readFile collate localeCompare migrationTimestamp
    (Client d NoTransaction log) =
    (Throw undefined_table,
     Client d NoTransaction (log ++ [Sql SelectAppliedFilenames])).
Proof.
  intros Hdir Hex. split.
  - unfold handleUp. rewrite tryCatch_rethrow. unfold getAllMigrations. rewrite Hdir.
    erewrite bind_Ok by reflexivity.
    erewrite bind_Throw; [reflexivity|]. now apply getAppliedMigrations_no_table.
  - unfold handleDown. rewrite tryCatch_rethrow.
    erewrite bind_Throw; [reflexivity|]. now apply getAppliedMigrations_no_table.
Qed.

End RunFacts.

(** ** Runs of [handleDown] *)

Lemma filter_filter_andb {A} (p q : A -> bool) l :
  List.filter p (List.filter q l) = List.filter (fun x => q x && p x) l.
Proof.
  induction l as [|x l IH]; [reflexivity|]. simpl.
  destruct (q x); simpl; [destruct (p x)|]; now rewrite IH.
Qed.





Section DownFacts.

Variable runScript : string -> database -> result database.
Variable readFile : string -> option string.
Variable collate : string -> string -> comparison.
Variable localeCompare : string -> string -> comparison.






(** X15. One record whose revert name does not end with [.revert.sql]
    (a name without [.apply.], say) blocks every revert: [handleDown]
    throws the consistency error after its query, whatever the boundary,
    and no script is run. *)
Theorem handleDown_blocked_by_one_record migrationTimestamp d log f :
  hasMigrationsTable d = true ->
  In f (filenames d) ->
  Js.endsWith (appliedToRevertMigration f) ".revert.sql" = false ->
  handleDown runScript readFile collate localeCompare migrationTimestamp
    (Client d NoTransaction log) =
    (Throw invalidMigrationFile,
     Client d NoTransaction (log ++ [Sql SelectAppliedFilenames])).
Proof.
  intros Hex Hf Hend. unfold handleDown. rewrite tryCatch_rethrow.
  erewrite bind_Ok by (apply getAppliedMigrations_Ok; [discriminate|exact Hex]).
  cbn [visible txn committed sent].
  erewrite bind_Throw; [reflexivity|].
  unfold lift, downPlan, determineMigrationsToRevert.
  destruct (forallb _ _) eqn:Hall; [|reflexivity].
  rewrite forallb_forall in Hall.
  specialize (Hall (appliedToRevertMigration f)). rewrite Hend in Hall.
  discriminate Hall. apply in_map.
  apply (Permutation_in _ (sort_Permutation _ _)).
  now apply (Permutation_in _ (sort_Permutation _ _)).
Qed.



End DownFacts.



Lemma getAppliedMigrations_sorted_records_witness :
  consistent String.compare /\
  txn (getClient Demo.migratedDatabase) <> FailedTransaction /\
  hasMigrationsTable (visible (getClient Demo.migratedDatabase)) = true /\
  exists applied,
    getAppliedMigrations Demo.runScript Demo.compare (getClient Demo.migratedDatabase) =
      (Ok applied,
       Client Demo.migratedDatabase NoTransaction [Sql SelectAppliedFilenames]) /\
    Permutation (filenames Demo.migratedDatabase) applied /\
    StronglySorted (notAfter String.compare) applied.
Proof.
  assert (Ht : txn (getClient Demo.migratedDatabase) <> FailedTransaction) by discriminate.
  assert (Hex : hasMigrationsTable (visible (getClient Demo.migratedDatabase)) = true)
    by (vm_compute; reflexivity).
  split; [exact String_compare_consistent|]. split; [exact Ht|]. split; [exact Hex|].
  exact (getAppliedMigrations_sorted_records Demo.runScript String.compare
           (getClient Demo.migratedDatabase) String_compare_consistent Ht Hex).
Defined.



Lemma handlers_need_the_table_witness :
  hasMigrationsTable Demo.emptyDatabase = false /\
  handleUp Demo.runScript Demo.readFile Demo.readdir Demo.compare Demo.compare None
    (getClient Demo.emptyDatabase) =
    (Throw undefined_table,
     Client Demo.emptyDatabase NoTransaction [Sql SelectAppliedFilenames]) /\
  handleDown Demo.runScript Demo.readFile Demo.compare Demo.compare None
    (getClient Demo.emptyDatabase) =
    (Throw undefined_table,
     Client Demo.emptyDatabase NoTransaction [Sql SelectAppliedFilenames]).
Proof.
  assert (Hex : hasMigrationsTable Demo.emptyDatabase = false) by (vm_compute; reflexivity).
  split; [exact Hex|].
  exact (handlers_need_the_table Demo.runScript Demo.readFile Demo.readdir
           Demo.compare Demo.compare _ None Demo.emptyDatabase [] eq_refl Hex).
Defined.





Lemma handleDown_blocked_by_one_record_witness :
  let d := Database {["migrations" := migrationsColumns]} ["2_posts.apply.sql"; "init.sql"] in
  hasMigrationsTable d = true /\
  In "init.sql" (filenames d) /\
  Js.endsWith (appliedToRevertMigration "init.sql") ".revert.sql" = false /\
  handleDown Rerunnable.runScript Rerunnable.readFile String.compare String.compare
    (Some "2") (getClient d) =
    (Throw invalidMigrationFile, Client d NoTransaction [Sql SelectAppliedFilenames]).
Proof.
  intros d.
  assert (Hex : hasMigrationsTable d = true) by (vm_compute; reflexivity).
  assert (Hin : In "init.sql" (filenames d)) by (right; now left).
  assert (Hend : Js.endsWith (appliedToRevertMigration "init.sql") ".revert.sql" = false)
    by reflexivity.
  split; [exact Hex|]. split; [exact Hin|]. split; [exact Hend|].
  exact (handleDown_blocked_by_one_record Rerunnable.runScript Rerunnable.readFile
           String.compare String.compare (Some "2") d [] "init.sql" Hex Hin Hend).
Defined.


(** ** functional.js *)

Lemma threadFirst_Function {A} (fns : list (A -> A)) : forall x,
  threadFirst x (map Function fns) = Ok (compose (rev fns) x).
Proof.
  unfold threadFirst, compose.
  induction fns as [|f fns IH]; intros x; [reflexivity|].
  cbn [map fold_left rev]. rewrite IH, fold_right_app. reflexivity.
Qed.

(** X17. On functions alone [threadFirst] is [compose] on the functions
    in reverse: the first function given is the first applied by
    [threadFirst] and the last applied by [compose]. *)
Theorem threadFirst_is_compose_reversed {A} (x : A) (fns : list (A -> A)) :
  threadFirst x (map Function fns) = Ok (compose (rev fns) x) /\
  Ok (compose fns x) = threadFirst x (map Function (rev fns)).
Proof.
  split; [apply threadFirst_Function|].
  now rewrite threadFirst_Function, rev_involutive.
Qed.

Lemma threadFirst_app {A} (x : A) (before after : list (threaded A)) :
  threadFirst x (before ++ after) =
  match threadFirst x before with
  | Ok value => threadFirst value after
  | Throw e => Throw e
  end.
Proof.
  unfold threadFirst. rewrite fold_left_app.
  destruct (fold_left _ before (Ok x)) as [value|e]; [reflexivity|].
  induction after as [|fn after IH]; [reflexivity|exact IH].
Qed.

Lemma threadFirst_applicable {A} (fns : list (threaded A)) : forall x,
  forallb applicable fns = true -> exists value, threadFirst x fns = Ok value.
Proof.
  induction fns as [|fn fns IH]; intros x Hall; [now exists x|].
  cbn [forallb] in Hall. apply andb_true_iff in Hall as [Hfn Hall].
  destruct fn as [f|func args| |]; try discriminate Hfn.
  - exact (IH (f x) Hall).
  - exact (IH (func x args) Hall).
Qed.

(** X18. [threadFirst] returns a value when everything to apply is a
    function or an array that starts with a function; the first thing
    that is not makes it throw: the error of the invalid format when it is
    neither a function nor an array, whatever comes after it. *)
Theorem threadFirst_throws_at_first_invalid {A} (x : A) (before : list (threaded A)) :
  forallb applicable before = true ->
  (exists value, threadFirst x before = Ok value) /\
  (forall after,
     threadFirst x (before ++ NeitherFunctionNorArray :: after) =
       Throw (JsError "Invalid function format")) /\
  (forall after,
     threadFirst x (before ++ ArrayWithoutFunction :: after) =
       Throw (JsError "TypeError")).
Proof.
  intros Hall. destruct (threadFirst_applicable before x Hall) as [value Hvalue].
  split; [now exists value|].
  split; intros after; rewrite threadFirst_app, Hvalue.
  - change (NeitherFunctionNorArray :: after) with ([NeitherFunctionNorArray] ++ after).
    now rewrite threadFirst_app.
  - change (ArrayWithoutFunction :: after) with ([ArrayWithoutFunction] ++ after).
    now rewrite threadFirst_app.
Qed.

Lemma threadFirst_throws_at_first_invalid_witness :
  let before := [Function (fun n => n + 1); ArrayOf (fun n args => n * length args) [7; 8]] in
  forallb applicable before = true /\
  (exists value, threadFirst 1 before = Ok value) /\
  (forall after,
     threadFirst 1 (before ++ NeitherFunctionNorArray :: after) =
       Throw (JsError "Invalid function format")) /\
  (forall after,
     threadFirst 1 (before ++ ArrayWithoutFunction :: after) =
       Throw (JsError "TypeError")).
Proof.
  intros before.
  assert (Hall : forallb applicable before = true) by reflexivity.
  split; [exact Hall|].
  exact (threadFirst_throws_at_first_invalid 1 before Hall).
Defined.

(** X19. Filtering with [composePredicates] is filtering with one
    predicate after the other, in the order given; with no predicate
    every input passes. *)
Theorem composePredicates_filters_in_turn {A} (predicates : list (A -> bool)) (l : list A) :
  List.filter (composePredicates predicates) l =
  fold_left (fun kept pred => List.filter pred kept) predicates l.
Proof.
  revert l. induction predicates as [|p predicates IH]; intros l.
  - cbn. apply filter_true.
  - cbn [fold_left]. rewrite <- IH, filter_filter_andb. reflexivity.
Qed.

(** ** migrate.generate.js *)

Lemma length_append u v :
  String.length (u +:+ v) = (String.length u + String.length v)%nat.
Proof.
  induction u as [|a u IH]; [reflexivity|].
  rewrite JsFacts.app_cons. cbn [String.length Nat.add]. now rewrite IH.
Qed.

Lemma isDecimalDigits_append u v :
  JsNumber.isDecimalDigits (u +:+ v) =
  JsNumber.isDecimalDigits u && JsNumber.isDecimalDigits v.
Proof.
  induction u as [|a u IH]; [reflexivity|].
  rewrite JsFacts.app_cons. cbn [JsNumber.isDecimalDigits]. now rewrite IH, andb_assoc.
Qed.

Lemma decimalValueFrom_append u : forall acc v,
  JsNumber.decimalValueFrom acc (u +:+ v) =
  JsNumber.decimalValueFrom (JsNumber.decimalValueFrom acc u) v.
Proof.
  induction u as [|a u IH]; intros acc v; [reflexivity|].
  rewrite JsFacts.app_cons. cbn [JsNumber.decimalValueFrom]. apply IH.
Qed.

Lemma decimalValue_append u v :
  JsNumber.decimalValue (u +:+ v) =
  (JsNumber.decimalValue u * 10 ^ Z.of_nat (String.length v) + JsNumber.decimalValue v)%Z.
Proof.
  unfold JsNumber.decimalValue at 1. rewrite decimalValueFrom_append.
  now rewrite NumberFacts.decimalValueFrom_shift.
Qed.

Lemma twoDigits_checked :
  forallb
    (fun k =>
       let s := Generate.padStart 2 "0" (Generate.numberToString (Z.of_nat k)) in
       (String.length s =? 2)%nat && JsNumber.isDecimalDigits s &&
       (JsNumber.decimalValue s =? Z.of_nat k)%Z)
    (seq 0 100) = true.
Proof. vm_compute. reflexivity. Qed.

Lemma fourDigits_checked :
  forallb
    (fun k =>
       let s := Generate.numberToString (Z.of_nat k) in
       (String.length s =? 4)%nat && JsNumber.isDecimalDigits s &&
       (JsNumber.decimalValue s =? Z.of_nat k)%Z)
    (seq 1000 (90 * 100)) = true.
Proof. vm_compute. reflexivity. Qed.

(** A field below 100, padded: two digits that denote it. *)
Lemma twoDigits n :
  (0 <= n <= 99)%Z ->
  let s := Generate.padStart 2 "0" (Generate.numberToString n) in
  String.length s = 2%nat /\ JsNumber.isDecimalDigits s = true /\
  JsNumber.decimalValue s = n.
Proof.
  intros Hn. pose proof twoDigits_checked as H. rewrite forallb_forall in H.
  specialize (H (Z.to_nat n)). rewrite Z2Nat.id in H by lia.
  cbv zeta in H |- *.
  assert (Hin : In (Z.to_nat n) (seq 0 100)) by (apply in_seq; lia).
  apply H in Hin. apply andb_true_iff in Hin as [Hin Hv].
  apply andb_true_iff in Hin as [Hl Hd].
  apply Nat.eqb_eq in Hl. apply Z.eqb_eq in Hv. auto.
Qed.

Lemma fourDigits n :
  (1000 <= n <= 9999)%Z ->
  let s := Generate.numberToString n in
  String.length s = 4%nat /\ JsNumber.isDecimalDigits s = true /\
  JsNumber.decimalValue s = n.
Proof.
  intros Hn. pose proof fourDigits_checked as H. rewrite forallb_forall in H.
  specialize (H (Z.to_nat n)). rewrite Z2Nat.id in H by lia.
  cbv zeta in H |- *.
  assert (Hin : In (Z.to_nat n) (seq 1000 (90 * 100))) by (apply in_seq; lia).
  apply H in Hin. apply andb_true_iff in Hin as [Hin Hv].
  apply andb_true_iff in Hin as [Hl Hd].
  apply Nat.eqb_eq in Hl. apply Z.eqb_eq in Hv. auto.
Qed.

(** The timestamp of a date with a year of four digits: fourteen digits
    that denote [timestampValue]. *)
Lemma generateTimestamp_digits date :
  Generate.fourDigitYear date ->
  String.length (Generate.generateTimestamp date) = 14%nat /\
  JsNumber.isDecimalDigits (Generate.generateTimestamp date) = true /\
  JsNumber.decimalValue (Generate.generateTimestamp date) = Generate.timestampValue date.
Proof.
  intros (HY & HM & HD & HH & Hm & Hs).
  unfold Generate.generateTimestamp, Generate.timestampValue. cbv zeta.
  destruct (fourDigits (Generate.getUTCFullYear date) HY) as (Ly & Dy & Vy).
  destruct (twoDigits (Generate.getUTCMonth date + 1) ltac:(lia)) as (Lo & Do & Vo).
  destruct (twoDigits (Generate.getUTCDate date) ltac:(lia)) as (Ld & Dd & Vd).
  destruct (twoDigits (Generate.getUTCHours date) ltac:(lia)) as (Lh & Dh & Vh).
  destruct (twoDigits (Generate.getUTCMinutes date) ltac:(lia)) as (Li & Di & Vi).
  destruct (twoDigits (Generate.getUTCSeconds date) ltac:(lia)) as (Ls & Ds & Vs).
  cbv zeta in *.
  set (y := Generate.numberToString (Generate.getUTCFullYear date)) in *.
  set (mo := Generate.padStart 2 "0" (Generate.numberToString (Generate.getUTCMonth date + 1))) in *.
  set (dd := Generate.padStart 2 "0" (Generate.numberToString (Generate.getUTCDate date))) in *.
  set (hh := Generate.padStart 2 "0" (Generate.numberToString (Generate.getUTCHours date))) in *.
  set (mi := Generate.padStart 2 "0" (Generate.numberToString (Generate.getUTCMinutes date))) in *.
  set (ss := Generate.padStart 2 "0" (Generate.numberToString (Generate.getUTCSeconds date))) in *.
  repeat split.
  - rewrite !length_append, Ly, Lo, Ld, Lh, Li, Ls. reflexivity.
  - rewrite !isDecimalDigits_append, Dy, Do, Dd, Dh, Di, Ds. reflexivity.
  - rewrite !decimalValue_append, !length_append, Lo, Ld, Lh, Li, Ls, Vy, Vo, Vd, Vh, Vi, Vs.
    cbn [Nat.add Z.of_nat Pos.of_succ_nat Pos.succ]. lia.
Qed.

Lemma timestampValue_compare a b :
  Generate.fourDigitYear a -> Generate.fourDigitYear b ->
  (Generate.timestampValue a ?= Generate.timestampValue b)%Z = Generate.compareDates a b.
Proof.
  intros (HY & HM & HD & HH & Hm & Hs) (HY' & HM' & HD' & HH' & Hm' & Hs').
  unfold Generate.timestampValue, Generate.compareDates.
  destruct a as [Y M D H m s], b as [Y' M' D' H' m' s'];
    cbn [Generate.getUTCFullYear Generate.getUTCMonth Generate.getUTCDate
         Generate.getUTCHours Generate.getUTCMinutes Generate.getUTCSeconds] in *.
  destruct (Z.compare_spec Y Y');
    [|apply Z.compare_lt_iff; lia|apply Z.compare_gt_iff; lia].
  destruct (Z.compare_spec M M');
    [|apply Z.compare_lt_iff; lia|apply Z.compare_gt_iff; lia].
  destruct (Z.compare_spec D D');
    [|apply Z.compare_lt_iff; lia|apply Z.compare_gt_iff; lia].
  destruct (Z.compare_spec H H');
    [|apply Z.compare_lt_iff; lia|apply Z.compare_gt_iff; lia].
  destruct (Z.compare_spec m m');
    [|apply Z.compare_lt_iff; lia|apply Z.compare_gt_iff; lia].
  subst. destruct (Z.compare_spec s s');
    [apply Z.compare_eq_iff|apply Z.compare_lt_iff|apply Z.compare_gt_iff]; lia.
Qed.

Lemma generateTimestamp_key date :
  Generate.fourDigitYear date ->
  JsNumber.isDecimalKey (Generate.generateTimestamp date) = true.
Proof.
  intros Hd. destruct (generateTimestamp_digits date Hd) as (Hl & Hdig & _).
  unfold JsNumber.isDecimalKey. now rewrite Hdig, Hl.
Qed.

Lemma generateTimestamp_compare a b :
  Generate.fourDigitYear a -> Generate.fourDigitYear b ->
  String.compare (Generate.generateTimestamp a) (Generate.generateTimestamp b) =
  Generate.compareDates a b.
Proof.
  intros Ha Hb.
  destruct (generateTimestamp_digits a Ha) as (La & Da & Va).
  destruct (generateTimestamp_digits b Hb) as (Lb & Db & Vb).
  rewrite NumberFacts.compare_decimalDigits by congruence.
  rewrite Va, Vb. now apply timestampValue_compare.
Qed.

(** X20. For dates with a year of four digits, the timestamp of
    [generateTimestamp] is a string of fourteen decimal digits, and two
    timestamps compare as strings as their dates do in time. *)
Theorem generateTimestamp_orders_as_dates a b :
  Generate.fourDigitYear a -> Generate.fourDigitYear b ->
  String.length (Generate.generateTimestamp a) = 14%nat /\
  JsNumber.isDecimalKey (Generate.generateTimestamp a) = true /\
  String.compare (Generate.generateTimestamp a) (Generate.generateTimestamp b) =
    Generate.compareDates a b.
Proof.
  intros Ha Hb. split; [now apply generateTimestamp_digits|].
  split; [now apply generateTimestamp_key|now apply generateTimestamp_compare].
Qed.

Lemma generateTimestamp_orders_as_dates_witness :
  let a := Generate.UtcDate 2023 8 22 3 44 0 in
  let b := Generate.UtcDate 2023 11 31 23 59 59 in
  Generate.fourDigitYear a /\ Generate.fourDigitYear b /\
  String.length (Generate.generateTimestamp a) = 14%nat /\
  JsNumber.isDecimalKey (Generate.generateTimestamp a) = true /\
  String.compare (Generate.generateTimestamp a) (Generate.generateTimestamp b) =
    Generate.compareDates a b.
Proof.
  intros a b.
  assert (Ha : Generate.fourDigitYear a) by (unfold Generate.fourDigitYear; cbn; lia).
  assert (Hb : Generate.fourDigitYear b) by (unfold Generate.fourDigitYear; cbn; lia).
  split; [exact Ha|]. split; [exact Hb|].
  exact (generateTimestamp_orders_as_dates a b Ha Hb).
Defined.

(** *** The names of the files *)










(** *** [formatMigrationName] *)

Lemma toLowerChar_facts c :
  Generate.toLowerChar (Generate.toLowerChar c) = Generate.toLowerChar c /\
  Generate.isAsciiUpper (Generate.toLowerChar c) = false /\
  Ascii.eqb (Generate.toLowerChar c) " " = Ascii.eqb c " " /\
  Ascii.eqb (Generate.toLowerChar c) "_" = Ascii.eqb c "_" /\
  Ascii.eqb (Generate.toLowerChar c) "." = Ascii.eqb c ".".
Proof. destruct c as [[] [] [] [] [] [] [] []]; vm_compute; auto. Qed.

Lemma sepFree_toLowerCase sep s :
  (forall c, Ascii.eqb (Generate.toLowerChar c) sep = Ascii.eqb c sep) ->
  Js.sepFree sep (Generate.toLowerCase s) = Js.sepFree sep s.
Proof.
  intros Hsep. induction s as [|a s IH]; [reflexivity|].
  cbn [Generate.toLowerCase Js.sepFree]. now rewrite Hsep, IH.
Qed.

Lemma toLowerCase_idem s :
  Generate.toLowerCase (Generate.toLowerCase s) = Generate.toLowerCase s.
Proof.
  induction s as [|a s IH]; [reflexivity|].
  cbn [Generate.toLowerCase]. rewrite IH. f_equal. apply toLowerChar_facts.
Qed.

Lemma hyphenateCamelCase_cons2 a b t :
  Generate.hyphenateCamelCase (String a (String b t)) =
  if Generate.isAsciiLower a && Generate.isAsciiUpper b
  then String a (String "-" (String b (Generate.hyphenateCamelCase t)))
  else String a (Generate.hyphenateCamelCase (String b t)).
Proof. reflexivity. Qed.

Lemma hyphenateCamelCase_toLowerCase s :
  Generate.hyphenateCamelCase (Generate.toLowerCase s) = Generate.toLowerCase s.
Proof.
  induction s as [|a s IH]; [reflexivity|].
  destruct s as [|b t]; [reflexivity|].
  cbn [Generate.toLowerCase] in *. rewrite hyphenateCamelCase_cons2.
  rewrite (proj1 (proj2 (toLowerChar_facts b))), andb_false_r. now rewrite IH.
Qed.

Lemma sepFree_hyphenateCamelCase sep :
  Ascii.eqb "-" sep = false ->
  forall s, Js.sepFree sep (Generate.hyphenateCamelCase s) = Js.sepFree sep s.
Proof.
  intros Hsep.
  assert (H : forall s,
            Js.sepFree sep (Generate.hyphenateCamelCase s) = Js.sepFree sep s /\
            forall a, Js.sepFree sep (Generate.hyphenateCamelCase (String a s)) =
                      Js.sepFree sep (String a s)).
  { induction s as [|b t [IH1 IH2]]; [now split|]. split; [apply IH2|].
    intros a. rewrite hyphenateCamelCase_cons2.
    destruct (Generate.isAsciiLower a && Generate.isAsciiUpper b).
    - cbn [Js.sepFree]. now rewrite Hsep, IH1.
    - cbn [Js.sepFree] in *. now rewrite IH2. }
  intros s. apply H.
Qed.

Lemma sepFree_replaceAllChar_same c r s :
  Ascii.eqb r c = false -> Js.sepFree c (Generate.replaceAllChar c r s) = true.
Proof.
  intros Hr. induction s as [|a s IH]; [reflexivity|].
  cbn [Generate.replaceAllChar Js.sepFree]. rewrite IH, andb_true_r.
  destruct (Ascii.eqb a c) eqn:E; now rewrite ?Hr, ?E.
Qed.

Lemma sepFree_replaceAllChar_other sep c r s :
  Ascii.eqb r sep = false -> Js.sepFree sep s = true ->
  Js.sepFree sep (Generate.replaceAllChar c r s) = true.
Proof.
  intros Hr. induction s as [|a s IH]; intros H; [reflexivity|].
  cbn [Generate.replaceAllChar Js.sepFree] in *. apply andb_true_iff in H as [Ha Hs].
  rewrite (IH Hs), andb_true_r. destruct (Ascii.eqb a c); [now rewrite Hr|exact Ha].
Qed.

Lemma replaceAllChar_sepFree c r s :
  Js.sepFree c s = true -> Generate.replaceAllChar c r s = s.
Proof.
  induction s as [|a s IH]; intros H; [reflexivity|].
  cbn [Generate.replaceAllChar Js.sepFree] in *. apply andb_true_iff in H as [Ha Hs].
  apply negb_true_iff in Ha. now rewrite Ha, (IH Hs).
Qed.


(** X21. A name formatted by [formatMigrationName] contains no space, no
    underscore and no capital letter, and formatting it again changes
    nothing. *)
Theorem formatMigrationName_clean_and_stable migrationName :
  let formattedName := Generate.formatMigrationName migrationName in
  Js.sepFree " " formattedName = true /\
  Js.sepFree "_" formattedName = true /\
  Generate.toLowerCase formattedName = formattedName /\
  Generate.formatMigrationName formattedName = formattedName.
Proof.
  intros formattedName.
  assert (Hspace : Js.sepFree " " formattedName = true).
  { unfold formattedName, Generate.formatMigrationName.
    rewrite sepFree_toLowerCase by (intros c; apply toLowerChar_facts).
    rewrite sepFree_hyphenateCamelCase by reflexivity.
    apply sepFree_replaceAllChar_other; [reflexivity|].
    now apply sepFree_replaceAllChar_same. }
  assert (Hunderscore : Js.sepFree "_" formattedName = true).
  { unfold formattedName, Generate.formatMigrationName.
    rewrite sepFree_toLowerCase by (intros c; apply toLowerChar_facts).
    rewrite sepFree_hyphenateCamelCase by reflexivity.
    now apply sepFree_replaceAllChar_same. }
  assert (Hlower : Generate.toLowerCase formattedName = formattedName)
    by apply toLowerCase_idem.
  repeat split; try assumption.
  unfold Generate.formatMigrationName at 1.
  rewrite (replaceAllChar_sepFree " " "-" _ Hspace).
  rewrite (replaceAllChar_sepFree "_" "-" _ Hunderscore).
  rewrite <- Hlower at 1. rewrite hyphenateCamelCase_toLowerCase.
  now rewrite toLowerCase_idem.
Qed.

(** *** The pair of [handleGenerate] *)






(** ** [handleSetup] and what is in the database *)

(** X24. [handleSetup] destroys nothing: on a client whose block has not
    failed it succeeds and every other table is as it was; when the
    bookkeeping table is there, the database, records included, is as it
    was; when it is not, the table is created without records and
    committed, together with what the session had done in an open block. *)
Theorem handleSetup_keeps_what_is_there runScript collate c :
  txn c <> FailedTransaction ->
  exists c1,
    handleSetup runScript collate c = (Ok tt, c1) /\
    (forall name, name <> "migrations" ->
       tables (visible c1) !! name = tables (visible c) !! name) /\
    (hasMigrationsTable (visible c) = true ->
     visible c1 = visible c /\ committed c1 = committed c /\ txn c1 = txn c) /\
    (hasMigrationsTable (visible c) = false ->
     filenames (visible c1) = [] /\ txn c1 = NoTransaction /\
     tables (committed c1) = <["migrations" := migrationsColumns]> (tables (visible c))).
Proof.
  intros Ht. destruct (hasMigrationsTable (visible c)) eqn:Hex.
  - eexists. split; [now apply handleSetup_skips|].
    assert (Hsame : forall log, visible (Client (committed c) (txn c) log) = visible c)
      by (intros log; now destruct c as [d [|w|] sent0]).
    rewrite Hsame. repeat split; try discriminate; reflexivity.
  - eexists. split; [now apply handleSetup_creates|].
    cbn [visible txn committed tables filenames]. repeat split; try discriminate.
    intros name Hne. now apply lookup_insert_ne.
Qed.

Lemma handleSetup_keeps_what_is_there_witness :
  let c := Client Demo.emptyDatabase (InTransaction Demo.migratedDatabase) [BEGIN] in
  txn c <> FailedTransaction /\
  exists c1,
    handleSetup Demo.runScript Demo.compare c = (Ok tt, c1) /\
    (forall name, name <> "migrations" ->
       tables (visible c1) !! name = tables (visible c) !! name) /\
    (hasMigrationsTable (visible c) = true ->
     visible c1 = visible c /\ committed c1 = committed c /\ txn c1 = txn c) /\
    (hasMigrationsTable (visible c) = false ->
     filenames (visible c1) = [] /\ txn c1 = NoTransaction /\
     tables (committed c1) = <["migrations" := migrationsColumns]> (tables (visible c))).
Proof.
  intros c.
  assert (Ht : txn c <> FailedTransaction) by discriminate.
  split; [exact Ht|].
  exact (handleSetup_keeps_what_is_there Demo.runScript Demo.compare c Ht).
Defined.
